(** * Upload processing endpoint

    A shallow embedding of the four variants of the [POST /api/process]
    service (backend/server.js, the hosted-parser variant, and the three
    sibling servers part_000, part_001 and part_002), and the properties of
    the upload / process / clean-up life cycle proved about them.

    Conventions of the embedding.
    - A JavaScript string is a [string]: one [ascii] per code unit, so the
      model covers strings whose code units are below 256.
    - Numbers that the code only compares or prints are [N]; the sampling
      temperature, the one fractional literal, is a [Q].
    - A handler is a computation in the monad [M]: it threads the [state]
      (file system, clock, the trace of outside effects, the replies sent, and
      the handler's own [let] variables) and may throw a [js_error].
    - Everything outside the repository that a handler talks to (the two
      hosted services, the PDF libraries, the process environment, a few
      JavaScript built-ins) is a field of the record [env], so that a
      property holds for every behaviour of those collaborators. *)

From Stdlib Require Import ZArith NArith String Ascii List Lia DecimalString DecimalN QArith.
From stdpp Require Import base gmap strings list.

(** ** JavaScript values and strings *)

Module Js.

(** Line feed, for the template literals that contain [\n]. *)
Definition nl : string := String (ascii_of_nat 10) EmptyString.

(** [s.length]. *)
Definition length (s : string) : N := N.of_nat (String.length s).

(** [`${n}`] for a non-negative integer. *)
Definition string_of_N (n : N) : string :=
  NilEmpty.string_of_uint (N.to_uint n).

(** [!s] is false exactly for the non-empty strings. *)
Definition truthy_string (s : string) : bool :=
  match s with EmptyString => false | String _ _ => true end.

(** White space and line terminators among the code units below 256. *)
Definition is_ws (c : ascii) : bool :=
  let n := N_of_ascii c in
  ((9 <=? n) && (n <=? 13) || (n =? 32) || (n =? 160))%N.

Fixpoint trimStart (s : string) : string :=
  match s with
  | EmptyString => EmptyString
  | String c r => if is_ws c then trimStart r else s
  end.

Fixpoint trimEnd (s : string) : string :=
  match s with
  | EmptyString => EmptyString
  | String c r =>
      match trimEnd r with
      | EmptyString => if is_ws c then EmptyString else String c EmptyString
      | r' => String c r'
      end
  end.

(** [s.trim()]. *)
Definition trim (s : string) : string := trimEnd (trimStart s).

(** [s.startsWith(p)]. *)
Definition startsWith (s p : string) : bool := String.prefix p s.

(** [s.substring(0, n)]. *)
Definition substring0 (n : N) (s : string) : string :=
  String.substring 0 (N.to_nat n) s.

(** [s.replace(/[^...]/g, r)] for a character class given by [keep]:
    every code unit outside the class is replaced by [r]. *)
Fixpoint replace_outside (keep : ascii -> bool) (r : ascii) (s : string) : string :=
  match s with
  | EmptyString => EmptyString
  | String c s' => String (if keep c then c else r) (replace_outside keep r s')
  end.

(** A decoded JSON document.  Numbers are integers: the handlers only test
    a number for being zero. *)
#[warnings="-register-all"]
Inductive json : Type :=
| JNull
| JBool (b : bool)
| JNum (z : Z)
| JStr (s : string)
| JArr (l : list json)
| JObj (fields : list (string * json)).

(** A JavaScript value read out of a JSON document: [None] is [undefined]. *)
Definition jsval : Type := option json.

Fixpoint assoc (k : string) (fs : list (string * json)) : jsval :=
  match fs with
  | [] => None
  | (k', v) :: fs' => if String.eqb k k' then Some v else assoc k fs'
  end.

(** [!!v]. *)
Definition truthy (v : jsval) : bool :=
  match v with
  | None | Some JNull => false
  | Some (JBool b) => b
  | Some (JNum z) => negb (z =? 0)%Z
  | Some (JStr s) => truthy_string s
  | Some (JArr _) | Some (JObj _) => true
  end.

(** [v?.k] for the field names the handlers read ([id], [markdown],
    [detail], [choices], [message], [content], [text]): [undefined] unless
    [v] is an object that has the field. *)
Definition opt_prop (v : jsval) (k : string) : jsval :=
  match v with
  | Some (JObj fs) => assoc k fs
  | _ => None
  end.

(** [v?.[0]]: the first element of an array, the first character of a
    string, the property ["0"] of an object. *)
Definition opt_index0 (v : jsval) : jsval :=
  match v with
  | Some (JArr (x :: _)) => Some x
  | Some (JStr (String c _)) => Some (JStr (String c EmptyString))
  | Some (JObj fs) => assoc "0" fs
  | _ => None
  end.

(** [v === 'lit']. *)
Definition is_string (v : jsval) (lit : string) : bool :=
  match v with
  | Some (JStr s) => String.eqb s lit
  | _ => false
  end.

(** [a || b]. *)
Definition or_else (a b : jsval) : jsval := if truthy a then a else b.

End Js.

Export Js(json(..), jsval).

(** ** Errors, replies and the outside world *)

(** A thrown value. [err_multer] is [err instanceof multer.MulterError]. *)
Record js_error : Type := mk_error {
  err_multer : bool;
  err_message : string;
  err_code : option string;
  err_path : option string;
}.

(** [new Error(msg)]. *)
Definition Error (msg : string) : js_error :=
  {| err_multer := false; err_message := msg; err_code := None; err_path := None |}.

(** [TypeError] raised by reading a property of [null] or [undefined], or by
    calling something that is not a function. *)
Definition TypeError (msg : string) : js_error := Error msg.

(** The error of a file-system call on a path that does not exist. *)
Definition ENOENT (p : string) : js_error :=
  {| err_multer := false;
     err_message := "ENOENT: no such file or directory, " +:+ p;
     err_code := Some "ENOENT";
     err_path := Some p |}.

(** [v.k] where [v] came out of [JSON.parse]: reading a property of [null]
    throws. *)
Definition prop (v : json) (k : string) : js_error + jsval :=
  match v with
  | JNull => inl (TypeError ("Cannot read properties of null (reading '" +:+ k +:+ "')"))
  | _ => inr (Js.opt_prop (Some v) k)
  end.

(** A field of the JSON body of a reply: [undefined] properties are dropped
    by [res.json]. *)
Inductive field_value : Type :=
| FBool (b : bool)
| FStr (s : string)
| FJson (v : json).

Record http_reply : Type := mk_reply {
  reply_status : N;
  reply_body : list (string * field_value);
}.

(** A node-fetch [Response]: [status], [text()] and [json()]; [resp_json] is
    [None] when the body is not JSON, in which case [json()] and
    [JSON.parse] throw. *)
Record fetch_response : Type := mk_response {
  resp_status : N;
  resp_text : string;
  resp_json : option json;
}.

(** [response.ok]. *)
Definition resp_ok (r : fetch_response) : bool :=
  ((200 <=? resp_status r) && (resp_status r <=? 299))%N.

(** What [await fetch(...)] produces: a rejection or a response. *)
Inductive fetch_result : Type :=
| FetchFail (e : js_error)
| FetchOk (r : fetch_response).

(** A part of a multimodal user message. *)
Inductive content_part : Type :=
| TextPart (text : string)
| ImageUrl (url : string).

Inductive message_content : Type :=
| Plain (s : string)
| Parts (ps : list content_part).

Record message : Type := mk_message {
  role : string;
  content : message_content;
}.

(** The JSON body sent to the chat-completion service.  A field that a
    variant does not write is [None]; [stop_null] records [stop: null]. *)
Record completion_request : Type := mk_request {
  model : string;
  messages : list message;
  temperature : Q;
  max_tokens : option N;
  max_completion_tokens : option N;
  top_p : option Q;
  stream : option bool;
  stop_null : bool;
}.

(** Effects on the world outside the handler, in the order they happen:
    waiting, the calls to the two hosted services, and the files created
    and unlinked ([deleted] tells whether the unlink removed a file). *)
Inductive event : Type :=
| EvSleep (ms : N)
| EvParserUpload (fileName : string)
| EvParserPoll (jobId : string)
| EvCompletion (body : completion_request)
| EvWrite (p : string)
| EvUnlink (p : string) (deleted : bool).

(** A call to one of the two hosted services. *)
Definition is_upstream (e : event) : bool :=
  match e with
  | EvParserUpload _ | EvParserPoll _ | EvCompletion _ => true
  | _ => false
  end.

(** The collaborators of a handler. *)
Record env : Type := mk_env {
  (** [__dirname] and [os.tmpdir()] *)
  dirname : string;
  tmpdir : string;
  (** [process.env] *)
  LLAMA_CLOUD_API_KEY : option string;
  GROQ_API_KEY : option string;
  NODE_ENV : option string;
  (** the hosted parser: the upload call, and the [n]-th status poll *)
  parser_upload : string -> string -> fetch_result;
  parser_poll : string -> nat -> fetch_result;
  (** the hosted chat-completion service *)
  completion : completion_request -> fetch_result;
  (** [pdf-parse]: a rejection, or the [text] of the parsed document *)
  pdf_text : string -> js_error + string;
  (** [pdf-poppler]: what [new Poppler()] throws, if it does, and for
      [pdfToPng] a rejection or the bytes of the image of page 1 *)
  poppler_new : option js_error;
  pdf_to_png : string -> js_error + string;
  (** [JSON.stringify], [String(v)] and [buffer.toString("base64")] *)
  JSON_stringify : json -> string;
  to_String : json -> string;
  base64 : string -> string;
}.

(** ** The state a request runs in, and the handler monad *)

(** [fs] maps the paths that exist to their content; [clock] is the time in
    milliseconds; [polls] counts the status polls sent so far; [trace] lists
    the outside effects, oldest first; [replies] the responses written to
    [res]; [filePath] and [tempImagePath] are the handler's [let] variables
    of those names ([None] is [undefined] or [null]). *)
Record state : Type := mk_state {
  fs : gmap string string;
  clock : N;
  polls : nat;
  trace : list event;
  replies : list http_reply;
  filePath : option string;
  tempImagePath : option string;
}.

Definition set_fs (f : gmap string string -> gmap string string) (s : state) : state :=
  mk_state (f (fs s)) (clock s) (polls s) (trace s) (replies s) (filePath s) (tempImagePath s).

Definition set_clock (c : N) (s : state) : state :=
  mk_state (fs s) c (polls s) (trace s) (replies s) (filePath s) (tempImagePath s).

Definition set_polls (n : nat) (s : state) : state :=
  mk_state (fs s) (clock s) n (trace s) (replies s) (filePath s) (tempImagePath s).

Definition add_event (e : event) (s : state) : state :=
  mk_state (fs s) (clock s) (polls s) (trace s ++ [e]) (replies s) (filePath s) (tempImagePath s).

Definition add_reply (r : http_reply) (s : state) : state :=
  mk_state (fs s) (clock s) (polls s) (trace s) (replies s ++ [r]) (filePath s) (tempImagePath s).

Definition set_filePath (p : option string) (s : state) : state :=
  mk_state (fs s) (clock s) (polls s) (trace s) (replies s) p (tempImagePath s).

Definition set_tempImagePath (p : option string) (s : state) : state :=
  mk_state (fs s) (clock s) (polls s) (trace s) (replies s) (filePath s) p.

(** How a computation ends: with a value, with a thrown error, or, for a
    loop run on too little fuel, without an answer. *)
Inductive outcome (A : Type) : Type :=
| Ret (a : A)
| Throw (e : js_error)
| Diverge.

Arguments Ret {A} a.
Arguments Throw {A} e.
Arguments Diverge {A}.

Definition M (A : Type) : Type := state -> outcome A * state.

Definition ret {A} (a : A) : M A := fun s => (Ret a, s).

Definition throw {A} (e : js_error) : M A := fun s => (Throw e, s).

Definition diverge {A} : M A := fun s => (Diverge, s).

Definition bind {A B} (m : M A) (k : A -> M B) : M B :=
  fun s =>
    match m s with
    | (Ret a, s') => k a s'
    | (Throw e, s') => (Throw e, s')
    | (Diverge, s') => (Diverge, s')
    end.

Declare Scope js_scope.
Delimit Scope js_scope with js.
Notation "x <- m ;; k" := (bind m (fun x => k))
  (at level 100, m at next level, right associativity) : js_scope.
Notation "m ;; k" := (bind m (fun _ => k))
  (at level 100, right associativity) : js_scope.
Open Scope js_scope.

(** [try { m } catch (err) { h err }]. *)
Definition try_catch {A} (m : M A) (h : js_error -> M A) : M A :=
  fun s =>
    match m s with
    | (Throw e, s') => h e s'
    | r => r
    end.

(** [try { m } finally { f }]: [f] runs however [m] ends, and an error
    of [f] replaces the result of [m]. *)
Definition try_finally {A} (m : M A) (f : M unit) : M A :=
  fun s =>
    match m s with
    | (Diverge, s') => (Diverge, s')
    | (r, s') =>
        match f s' with
        | (Ret _, s'') => (r, s'')
        | (Throw e, s'') => (Throw e, s'')
        | (Diverge, s'') => (Diverge, s'')
        end
    end.

Definition get : M state := fun s => (Ret s, s).

Definition modify (f : state -> state) : M unit := fun s => (Ret tt, f s).

Definition lift {A} (r : js_error + A) : M A :=
  match r with
  | inl e => throw e
  | inr a => ret a
  end.

(** *** File system, clock and [res] *)

(** [await fs.readFile(p)]. *)
Definition fs_readFile (p : string) : M string :=
  s <- get ;;
  match fs s !! p with
  | Some c => ret c
  | None => throw (ENOENT p)
  end.

(** [fs.existsSync(p)]. *)
Definition fs_existsSync (p : string) : M bool :=
  s <- get ;;
  ret (match fs s !! p with Some _ => true | None => false end).

(** [await fs.unlink(p)]: removes an existing file, and rejects with
    [ENOENT] when there is none.  Either way the attempt is traced. *)
Definition fs_unlink (p : string) : M unit :=
  s <- get ;;
  match fs s !! p with
  | Some _ => modify (fun s => add_event (EvUnlink p true) (set_fs (delete p) s))
  | None => modify (add_event (EvUnlink p false)) ;; throw (ENOENT p)
  end.

(** Writing a file, as the libraries that produce one do. *)
Definition fs_writeFile (p c : string) : M unit :=
  modify (fun s => add_event (EvWrite p) (set_fs (insert p c) s)).

(** [Date.now()]. *)
Definition Date_now : M N := s <- get ;; ret (clock s).

(** [await new Promise(resolve => setTimeout(resolve, ms))]. *)
Definition sleep (ms : N) : M unit :=
  modify (fun s => add_event (EvSleep ms) (set_clock (clock s + ms)%N s)).

(** [path.join(a, b)] for two plain segments. *)
Definition path_join (a b : string) : string := a +:+ "/" +:+ b.

(** The properties of an object literal passed to [res.json]: a property
    whose value is [undefined] is not serialised. *)
Fixpoint object (l : list (string * option field_value)) : list (string * field_value) :=
  match l with
  | [] => []
  | (k, Some v) :: l' => (k, v) :: object l'
  | (_, None) :: l' => object l'
  end.

(** [res.status(code).json(body)]; [res.json(body)] is the case [code = 200]. *)
Definition res_status_json (code : N) (body : list (string * option field_value)) : M unit :=
  modify (add_reply (mk_reply code (object body))).

Definition res_json (body : list (string * option field_value)) : M unit :=
  res_status_json 200 body.

(** [await fetch(...)], the request traced as [ev] and answered by the
    collaborator with [r]. *)
Definition await_fetch (ev : event) (r : fetch_result) : M fetch_response :=
  modify (add_event ev) ;;
  match r with
  | FetchFail e => throw e
  | FetchOk resp => ret resp
  end.

(** [await response.json()] and [JSON.parse(text)] on the body of [r]; the
    message of the error they throw is abridged. *)
Definition response_json (r : fetch_response) : M json :=
  match resp_json r with
  | Some j => ret j
  | None => throw (Error "invalid json response body")
  end.

(** [`${v}`] for a value read out of a JSON document. *)
Definition template (e : env) (v : jsval) : string :=
  match v with
  | None => "undefined"
  | Some (JStr s) => s
  | Some j => to_String e j
  end.

(** [!process.env.NAME]. *)
Definition unset (v : option string) : bool :=
  match v with
  | None => true
  | Some s => negb (Js.truthy_string s)
  end.

(** ** The request, after the multipart middleware *)

(** [req.file] as multer's disk storage describes it. *)
Record upload_file : Type := mk_file {
  originalname : string;
  mimetype : string;
  size : N;
  path : string;
}.

(** [req.file] and [req.body.prompt]. *)
Record request : Type := mk_req {
  req_file : option upload_file;
  body_prompt : option string;
}.

(** ** The multipart middleware, shared by the four variants

    [multer.diskStorage] is configured alike in backend/server.js (lines
    28-34), part_000 (35-41), part_001 (31-38) and part_002 (32-40); the
    file filter and the size limit differ and live in the module of each
    variant. *)

Module Upload.

Definition in_range (lo hi : N) (c : ascii) : bool :=
  ((lo <=? N_of_ascii c) && (N_of_ascii c <=? hi))%N.

(** The character class [[a-zA-Z0-9.-]]. *)
Definition safe_char (c : ascii) : bool :=
  in_range 97 122 c || in_range 65 90 c || in_range 48 57 c
  || (N_of_ascii c =? 46)%N || (N_of_ascii c =? 45)%N.

(** [file.originalname.replace(/[^a-zA-Z0-9.-]/g, "_")]. *)
Definition sanitize (originalname : string) : string :=
  Js.replace_outside safe_char "_"%char originalname.

(** The [filename] callback of [multer.diskStorage], the same in the four
    files: [cb(null, `${Date.now()}-${safe}`)]. *)
Definition filename (now : N) (originalname : string) : string :=
  Js.string_of_N now +:+ "-" +:+ sanitize originalname.

(** [uploadsDir]. *)
Definition uploadsDir (e : env) : string :=
  path_join (path_join (dirname e) "data") "uploads".

(** A file part of the incoming multipart body. *)
Record incoming_file : Type := mk_incoming {
  in_originalname : string;
  in_mimetype : string;
  in_size : N;
  in_content : string;
}.

(** The error multer raises when a file is larger than [limits.fileSize]. *)
Definition LIMIT_FILE_SIZE : js_error :=
  {| err_multer := true; err_message := "File too large";
     err_code := Some "LIMIT_FILE_SIZE"; err_path := None |}.

(** [upload.single("file")], after multer's documentation: the file filter
    decides first, and an error it passes to its callback is forwarded as
    it is; an accepted file is stored under [uploadsDir] with the name the
    [filename] callback gives; a file larger than the limit is not kept and
    is reported with [LIMIT_FILE_SIZE]. *)
Definition single (e : env) (fileFilter : string -> js_error + bool) (fileSize : N)
    (part : option incoming_file) : M (option upload_file) :=
  match part with
  | None => ret None
  | Some f =>
      accept <- lift (fileFilter (in_mimetype f)) ;;
      if accept : bool then
        now <- Date_now ;;
        let p := path_join (uploadsDir e) (filename now (in_originalname f)) in
        if (fileSize <? in_size f)%N then throw LIMIT_FILE_SIZE
        else
          fs_writeFile p (in_content f) ;;
          ret (Some (mk_file (in_originalname f) (in_mimetype f) (in_size f) p))
      else ret None
  end.

End Upload.

(** ** backend/server.js: the hosted-parser variant

    [fileFilter] and [fileSize] are lines 35-42, [uploadFileToLlamaParse]
    lines 56-91, [pollForResult] lines 93-128, [errorHandler] lines 131-135
    and the route handler lines 138-237. *)

Module Backend.

Definition fileFilter (mimetype : string) : js_error + bool :=
  if Js.startsWith mimetype "image/" || String.eqb mimetype "application/pdf"
  then inr true
  else inl (Error "Only image and PDF files are allowed.").

Definition fileSize : N := 25 * 1024 * 1024.

(** [uploadFileToLlamaParse(filePath, fileName)]; the [catch] logs and
    rethrows. *)
Definition uploadFileToLlamaParse (e : env) (filePath fileName : string) : M jsval :=
  try_catch
    (fileBuffer <- fs_readFile filePath ;;
     response <- await_fetch (EvParserUpload fileName) (parser_upload e fileName fileBuffer) ;;
     let responseText := resp_text response in
     if negb (resp_ok response) then
       throw (Error ("Upload failed (" +:+ Js.string_of_N (resp_status response)
                     +:+ "): " +:+ responseText))
     else
       result <- response_json response ;;
       lift (prop result "id"))
    (fun error => throw error).

Definition maxAttempts : N := 60.

Definition interval : N := 5000.

Definition not_completed : string := "Job not completed yet".

Definition timeout_error : js_error :=
  Error "Parsing timeout - job took too long to complete".

(** One status request: the [n]-th poll the parser sees, where [n] is the
    number of polls sent before. *)
Definition fetch_status (e : env) (jobId : string) : M fetch_response :=
  s <- get ;;
  modify (set_polls (S (polls s))) ;;
  await_fetch (EvParserPoll jobId) (parser_poll e jobId (polls s)).

(** The [while (attempts < maxAttempts)] loop of [pollForResult], with the
    [throw] that follows it.  [fuel] bounds the number of iterations. *)
Fixpoint poll_loop (e : env) (jobId : string) (fuel : nat) (attempts : N) : M jsval :=
  if (attempts <? maxAttempts)%N then
    match fuel with
    | O => diverge
    | S fuel' =>
        sleep interval ;;
        response <- fetch_status e jobId ;;
        if resp_ok response then
          result <- response_json response ;;
          lift (prop result "markdown")
        else if (resp_status response =? 400)%N then
          error <- response_json response ;;
          detail <- lift (prop error "detail") ;;
          if Js.is_string detail not_completed then
            poll_loop e jobId fuel' (attempts + 1)%N
          else
            throw (Error ("Error: " +:+ JSON_stringify e error))
        else
          let errorText := resp_text response in
          throw (Error ("Error checking job status (" +:+ Js.string_of_N (resp_status response)
                        +:+ "): " +:+ errorText))
    end
  else throw timeout_error.

(** [pollForResult(jobId)]: [attempts] starts at 0. *)
Definition pollForResult (e : env) (jobId : jsval) : M jsval :=
  poll_loop e (template e jobId) (N.to_nat maxAttempts) 0.

Definition maxContentLength : N := 10000.

Definition truncation_mark : string := "... [content truncated]".

(** [parsedContent.length > maxContentLength ? parsedContent.substring(0,
    maxContentLength) + "... [content truncated]" : parsedContent], as the
    text it contributes to the template literal.  A JSON array has a
    [length] and no [substring]; other values have no [length]. *)
Definition truncatedContent (e : env) (parsedContent : json) : js_error + string :=
  match parsedContent with
  | JStr s =>
      if (maxContentLength <? Js.length s)%N
      then inr (Js.substring0 maxContentLength s +:+ truncation_mark)
      else inr s
  | JArr l =>
      if (maxContentLength <? N.of_nat (List.length l))%N
      then inl (TypeError "parsedContent.substring is not a function")
      else inr (to_String e parsedContent)
  | _ => inr (to_String e parsedContent)
  end.

Definition messages_of (prompt truncated : string) : list message :=
  [ mk_message "system" (Plain "You are a helpful assistant.");
    mk_message "user"
      (Plain ("Instruction: '" +:+ prompt +:+ "'" +:+ Js.nl +:+ Js.nl
              +:+ "Content:" +:+ Js.nl +:+ truncated)) ].

Definition requestBody (msgs : list message) : completion_request :=
  {| model := "llama3-70b-8192";
     messages := msgs;
     temperature := 0;
     max_tokens := Some 2048%N;
     max_completion_tokens := None;
     top_p := None;
     stream := None;
     stop_null := false |}.

(** [if (filePath) { try { await fs.unlink(filePath) } catch (e) { ... } }],
    the clean-up written twice in the handler. *)
Definition cleanup : M unit :=
  s <- get ;;
  match filePath s with
  | Some p =>
      if Js.truthy_string p
      then try_catch (fs_unlink p) (fun _ => ret tt)
      else ret tt
  | None => ret tt
  end.

(** The body of the [try] block. *)
Definition process (e : env) (req : request) : M unit :=
  let prompt := Js.trim <$> body_prompt req in
  let file := req_file req in
  modify (set_filePath (path <$> file)) ;;
  match file with
  | None => throw (Error "No file uploaded.")
  | Some file =>
      match prompt with
      | None => throw (Error "No prompt provided.")
      | Some prompt =>
          if negb (Js.truthy_string prompt) then throw (Error "No prompt provided.")
          else if unset (LLAMA_CLOUD_API_KEY e) then
            throw (Error "LLAMA_CLOUD_API_KEY is not set in environment variables")
          else if unset (GROQ_API_KEY e) then
            throw (Error "GROQ_API_KEY is not set in environment variables")
          else
            jobId <- uploadFileToLlamaParse e (path file) (originalname file) ;;
            parsedContent <- pollForResult e jobId ;;
            if negb (Js.truthy parsedContent)
            then throw (Error "No content returned by LlamaParse.")
            else
              match parsedContent with
              | None => throw (Error "No content returned by LlamaParse.")
              | Some content_ =>
                  truncated <- lift (truncatedContent e content_) ;;
                  let body := requestBody (messages_of prompt truncated) in
                  groqResp <- await_fetch (EvCompletion body) (completion e body) ;;
                  let groqResponseText := resp_text groqResp in
                  if negb (resp_ok groqResp) then
                    throw (Error ("Groq API error (" +:+ Js.string_of_N (resp_status groqResp)
                                  +:+ "): " +:+ groqResponseText))
                  else
                    data <- response_json groqResp ;;
                    let first := Js.opt_index0 (Js.opt_prop (Some data) "choices") in
                    let outputText :=
                      Js.or_else
                        (Js.or_else (Js.opt_prop (Js.opt_prop first "message") "content")
                                    (Js.opt_prop first "text"))
                        (Some (JStr EmptyString)) in
                    if negb (Js.truthy outputText)
                    then throw (Error "No output text received from Groq")
                    else
                      cleanup ;;
                      res_json [("success", Some (FBool true));
                                ("output", FJson <$> outputText)]
              end
      end
  end.

(** The route handler: [try { ... } catch (err) { res.status(500).json(...) }
    finally { ... }]. *)
Definition handler (e : env) (req : request) : M unit :=
  modify (set_filePath None) ;;
  try_finally
    (try_catch (process e req)
       (fun err =>
          res_status_json 500 [("success", Some (FBool false));
                               ("error", Some (FStr (err_message err)))]))
    cleanup.

(** [errorHandler], which answers the errors of the middleware. *)
Definition errorHandler (err : js_error) : M unit :=
  if err_multer err
  then res_status_json 400 [("error", Some (FStr (err_message err)))]
  else res_status_json 500
         [("error", Some (FStr (if Js.truthy_string (err_message err)
                                then err_message err else "Internal Server Error")))].

(** [app.post("/api/process", upload.single("file"), handler)] followed by
    [app.use(errorHandler)]. *)
Definition route (e : env) (part : option Upload.incoming_file) (prompt : option string) : M unit :=
  r <- try_catch
         (file <- Upload.single e fileFilter fileSize part ;; ret (inr file))
         (fun err => ret (inl err)) ;;
  match r with
  | inl err => errorHandler err
  | inr file => handler e (mk_req file prompt)
  end.

End Backend.

(** ** Pieces the three sibling servers share word for word

    The model identifier, the system prompt for images, the reading of the
    first choice of a completion, the [errorHandler] of part_000 (lines
    68-74) and part_001 (lines 70-76), and the guarded [unlink]. *)

Module Sibling.

Definition model_id : string := "meta-llama/llama-4-scout-17b-16e-instruct".

Definition extraction_system : string :=
  "You are a highly efficient text extraction assistant. Your sole purpose is to extract and return text from an image. You must not add any commentary, explanations, or conversational text. Your response should be nothing but the extracted text.".

(** The system and user messages that carry an inline image. *)
Definition image_messages (e : env) (text mime bytes : string) : list message :=
  [ mk_message "system" (Plain extraction_system);
    mk_message "user"
      (Parts [ TextPart text;
               ImageUrl ("data:" +:+ mime +:+ ";base64," +:+ base64 e bytes) ]) ].

(** [data.choices?.[0]?.message?.content] on a decoded reply: reading
    [choices] of [null] throws. *)
Definition first_content (data : json) : M jsval :=
  choices <- lift (prop data "choices") ;;
  ret (Js.opt_prop (Js.opt_prop (Js.opt_index0 choices) "message") "content").

(** [errorHandler] of part_000 and part_001. *)
Definition errorHandler (err : js_error) : M unit :=
  if err_multer err
  then res_status_json 400
         [("error", Some (FStr ("File upload error: " +:+ err_message err)))]
  else res_status_json 500
         [("error", Some (FStr (if Js.truthy_string (err_message err)
                                then err_message err else "Internal Server Error")))].

(** [try { await fs.unlink(p) } catch (err) { ... }]: the [catch] only
    logs. *)
Definition unlink_quietly (p : string) : M unit :=
  try_catch (fs_unlink p) (fun _ => ret tt).

End Sibling.

(** ** part_000: images, and PDFs with a local text layer or OCR fallback

    The upload settings are lines 43-53 and the route handler lines
    76-239. *)

Module Part000.

Definition fileFilter (mimetype : string) : js_error + bool :=
  if Js.startsWith mimetype "image/" || String.eqb mimetype "application/pdf"
  then inr true
  else inl (Error "Only image and PDF files are allowed.").

Definition fileSize : N := 10 * 1024 * 1024.

Definition analysis_system : string :=
  "You are a text analysis assistant. Your sole purpose is to analyze the provided text based on the user's prompt. You must not add any commentary, explanations, or conversational text unless explicitly asked.".

Definition text_messages (prompt extractedText : string) : list message :=
  [ mk_message "system" (Plain analysis_system);
    mk_message "user"
      (Parts [ TextPart ("Prompt: " +:+ prompt +:+ Js.nl +:+ Js.nl
                         +:+ "Document Text:" +:+ Js.nl +:+ extractedText) ]) ].

(** [await poppler.pdfToPng(src, out, options)]: page 1 of [src] is written
    to [`${out}-1.png`]. *)
Definition pdfToPng (e : env) (src out : string) : M unit :=
  pdf <- fs_readFile src ;;
  png <- lift (pdf_to_png e pdf) ;;
  fs_writeFile (out +:+ "-1.png") png.

(** The [if / else if / else] on the MIME type that builds [messages]. *)
Definition build_messages (e : env) (file : upload_file) (prompt : string) : M (list message) :=
  if String.eqb (mimetype file) "application/pdf" then
    pdfBuffer <- fs_readFile (path file) ;;
    extractedText <- lift (pdf_text e pdfBuffer) ;;
    if Js.truthy_string extractedText && (0 <? Js.length (Js.trim extractedText))%N then
      ret (text_messages prompt extractedText)
    else
      match poppler_new e with
      | Some err => throw err
      | None =>
          now <- Date_now ;;
          let imageFilename := "temp-" +:+ Js.string_of_N now in
          let tempImagePath := path_join (tmpdir e) imageFilename in
          modify (set_tempImagePath (Some tempImagePath)) ;;
          pdfToPng e (path file) tempImagePath ;;
          imageBuffer <- fs_readFile (tempImagePath +:+ "-1.png") ;;
          ret (Sibling.image_messages e prompt "image/png" imageBuffer)
      end
  else if Js.startsWith (mimetype file) "image/" then
    imageBuffer <- fs_readFile (path file) ;;
    ret (Sibling.image_messages e prompt (mimetype file) imageBuffer)
  else throw (Error "Unsupported file type.").

Definition requestBody (msgs : list message) : completion_request :=
  {| model := Sibling.model_id;
     messages := msgs;
     temperature := 0;
     max_tokens := Some 1024%N;
     max_completion_tokens := None;
     top_p := None;
     stream := None;
     stop_null := false |}.

(** The body of the [try] block. *)
Definition process (e : env) (req : request) : M unit :=
  let prompt := body_prompt req in
  let file := req_file req in
  modify (set_filePath (path <$> file)) ;;
  match file with
  | None => throw (Error "No file uploaded.")
  | Some file =>
      match prompt with
      | None => throw (Error "No prompt provided.")
      | Some prompt =>
          if negb (Js.truthy_string prompt) then throw (Error "No prompt provided.")
          else
            msgs <- build_messages e file prompt ;;
            let body := requestBody msgs in
            groqResponse <- await_fetch (EvCompletion body) (completion e body) ;;
            if negb (resp_ok groqResponse) then
              let errorText := resp_text groqResponse in
              throw (Error ("Groq API Error: " +:+ Js.string_of_N (resp_status groqResponse)
                            +:+ " - " +:+ errorText))
            else
              data <- response_json groqResponse ;;
              outputText <- Sibling.first_content data ;;
              if negb (Js.truthy outputText)
              then throw (Error "Invalid response or missing content from Groq API.")
              else res_json [("success", Some (FBool true));
                             ("output", FJson <$> outputText)]
      end
  end.

(** The [finally] block. *)
Definition cleanup : M unit :=
  s <- get ;;
  match filePath s with
  | Some p => if Js.truthy_string p then Sibling.unlink_quietly p else ret tt
  | None => ret tt
  end ;;
  match tempImagePath s with
  | Some t => if Js.truthy_string t then Sibling.unlink_quietly (t +:+ "-1.png") else ret tt
  | None => ret tt
  end.

(** The route handler; [next(error)] reaches [errorHandler]. *)
Definition handler (e : env) (req : request) : M unit :=
  modify (set_filePath None) ;;
  modify (set_tempImagePath None) ;;
  try_finally (try_catch (process e req) Sibling.errorHandler) cleanup.

Definition route (e : env) (part : option Upload.incoming_file) (prompt : option string) : M unit :=
  r <- try_catch
         (file <- Upload.single e fileFilter fileSize part ;; ret (inr file))
         (fun err => ret (inl err)) ;;
  match r with
  | inl err => Sibling.errorHandler err
  | inr file => handler e (mk_req file prompt)
  end.

End Part000.

(** ** part_001: images only, with a built-in prompt

    The upload settings are lines 40-51 and the route handler lines
    79-157. *)

Module Part001.

Definition fileFilter (mimetype : string) : js_error + bool :=
  if Js.startsWith mimetype "image/"
  then inr true
  else inl (Error "Only image files are allowed.").

Definition fileSize : N := 5 * 1024 * 1024.

Definition prompt : string :=
  "Extract all text from the provided image. Respond with only the extracted text, nothing else. Do not add any introductory or concluding sentences or conversational filler. Provide only the raw text.".

Definition requestBody (msgs : list message) : completion_request :=
  {| model := Sibling.model_id;
     messages := msgs;
     temperature := 0;
     max_tokens := Some 1024%N;
     max_completion_tokens := None;
     top_p := None;
     stream := None;
     stop_null := false |}.

(** The body of the [try] block.  [req.body] is never read. *)
Definition process (e : env) (req : request) : M unit :=
  modify (set_filePath (path <$> req_file req)) ;;
  match req_file req with
  | None => throw (Error "No file uploaded.")
  | Some file =>
      if negb (Js.truthy_string (path file)) then throw (Error "No file uploaded.")
      else
        imageBuffer <- fs_readFile (path file) ;;
        let msgs := Sibling.image_messages e prompt (mimetype file) imageBuffer in
        let body := requestBody msgs in
        groqResponse <- await_fetch (EvCompletion body) (completion e body) ;;
        if negb (resp_ok groqResponse) then
          let errorText := resp_text groqResponse in
          throw (Error ("Groq API Error: " +:+ Js.string_of_N (resp_status groqResponse)
                        +:+ " - " +:+ errorText))
        else
          data <- response_json groqResponse ;;
          outputText <- Sibling.first_content data ;;
          if negb (Js.truthy outputText)
          then throw (Error "Invalid response or missing content from Groq API.")
          else res_json [("success", Some (FBool true));
                         ("output", FJson <$> outputText)]
  end.

(** The [finally] block. *)
Definition cleanup : M unit :=
  s <- get ;;
  match filePath s with
  | Some p => if Js.truthy_string p then Sibling.unlink_quietly p else ret tt
  | None => ret tt
  end.

Definition handler (e : env) (req : request) : M unit :=
  modify (set_filePath None) ;;
  try_finally (try_catch (process e req) Sibling.errorHandler) cleanup.

Definition route (e : env) (part : option Upload.incoming_file) (prompt : option string) : M unit :=
  r <- try_catch
         (file <- Upload.single e fileFilter fileSize part ;; ret (inr file))
         (fun err => ret (inl err)) ;;
  match r with
  | inl err => Sibling.errorHandler err
  | inr file => handler e (mk_req file prompt)
  end.

End Part001.

(** ** part_002: PDFs only, with a bundled default document

    The upload settings are lines 42-52, [errorHandler] lines 77-87 and the
    route handler lines 91-182. *)

Module Part002.

Definition fileFilter (mimetype : string) : js_error + bool :=
  if String.eqb mimetype "application/pdf"
  then inr true
  else inl (Error "Only PDF files are allowed!").

Definition fileSize : N := 5 * 1024 * 1024.

(** The test document of [pdf-parse] that stands in for a missing upload. *)
Definition default_pdf (e : env) : string :=
  path_join (path_join (path_join (path_join (path_join (dirname e)
    "node_modules") "pdf-parse") "test") "data") "05-versions-space.pdf".

(** [path.resolve(req.file.path)]: the stored path is already absolute,
    being built from [__dirname]. *)
Definition path_resolve (p : string) : string := p.

Definition requestBody (combinedPrompt : string) : completion_request :=
  {| model := Sibling.model_id;
     messages := [ mk_message "user" (Plain combinedPrompt) ];
     temperature := 0.7;
     max_tokens := None;
     max_completion_tokens := Some 1024%N;
     top_p := Some 1%Q;
     stream := Some false;
     stop_null := true |}.

(** [errorHandler]: every error is answered with status 500. *)
Definition errorHandler (e : env) (err : js_error) : M unit :=
  res_status_json 500
    [("error", Some (FStr "Something went wrong!"));
     ("message", Some (FStr (match NODE_ENV e with
                             | Some mode =>
                                 if String.eqb mode "development"
                                 then err_message err else "Internal server error"
                             | None => "Internal server error"
                             end)));
     ("path", FStr <$> err_path err)].

(** The body of the [try] block. *)
Definition process (e : env) (req : request) : M unit :=
  let filePath :=
    match req_file req with
    | None => default_pdf e
    | Some file => path_resolve (path file)
    end in
  modify (set_filePath (Some filePath)) ;;
  present <- fs_existsSync filePath ;;
  if negb present then throw (Error ("File not found: " +:+ filePath))
  else
    let prompt :=
      match body_prompt req with
      | Some p => if Js.truthy_string p then p else "No prompt provided"
      | None => "No prompt provided"
      end in
    pdfBuffer <- fs_readFile filePath ;;
    resumeText <- lift (pdf_text e pdfBuffer) ;;
    match req_file req with
    | Some _ => Sibling.unlink_quietly filePath
    | None => ret tt
    end ;;
    let combinedPrompt :=
      "Here is the resume text:" +:+ Js.nl +:+ resumeText +:+ Js.nl +:+ Js.nl
      +:+ "User's question:" +:+ Js.nl +:+ prompt in
    let body := requestBody combinedPrompt in
    groqResponse <- await_fetch (EvCompletion body) (completion e body) ;;
    if negb (resp_ok groqResponse) then
      let errorText := resp_text groqResponse in
      res_status_json (resp_status groqResponse)
        [("error", Some (FStr "API Error")); ("details", Some (FStr errorText))]
    else
      data <- response_json groqResponse ;;
      outputText <- Sibling.first_content data ;;
      if negb (Js.truthy outputText)
      then throw (Error "Invalid response from Groq API")
      else res_json [("success", Some (FBool true));
                     ("output", FJson <$> outputText)].

(** The [catch] block. *)
Definition on_error (e : env) (req : request) (error : js_error) : M unit :=
  s <- get ;;
  match req_file req, filePath s with
  | Some _, Some p =>
      present <- fs_existsSync p ;;
      if present then Sibling.unlink_quietly p else ret tt
  | _, _ => ret tt
  end ;;
  errorHandler e error.

Definition handler (e : env) (req : request) : M unit :=
  modify (set_filePath None) ;;
  try_catch (process e req) (on_error e req).

Definition route (e : env) (part : option Upload.incoming_file) (prompt : option string) : M unit :=
  r <- try_catch
         (file <- Upload.single e fileFilter fileSize part ;; ret (inr file))
         (fun err => ret (inl err)) ;;
  match r with
  | inl err => errorHandler e err
  | inr file => handler e (mk_req file prompt)
  end.

End Part002.

(** ** Vocabulary of the properties *)

(** The status poll was answered with HTTP 400 and the marker that the job
    is still running. *)
Definition not_yet_complete (r : fetch_result) : bool :=
  match r with
  | FetchOk resp =>
      (resp_status resp =? 400)%N &&
      match resp_json resp with
      | Some (JObj fields) => Js.is_string (Js.assoc "detail" fields) Backend.not_completed
      | _ => false
      end
  | FetchFail _ => false
  end.

(** What [k] rounds of waiting and polling add to the trace. *)
Fixpoint poll_trace (jobId : string) (k : nat) : list event :=
  match k with
  | O => []
  | S k' => EvSleep Backend.interval :: EvParserPoll jobId :: poll_trace jobId k'
  end.

(** The state [k] rounds of waiting and polling later: only the clock, the
    poll counter and the trace move. *)
Definition after_polls (jobId : string) (k : nat) (s : state) : state :=
  mk_state (fs s) (clock s + Backend.interval * N.of_nat k)%N (polls s + k)
           (trace s ++ poll_trace jobId k) (replies s) (filePath s) (tempImagePath s).

(** The events and the replies a run from [s] to [s'] has added. *)
Definition events_since (s s' : state) : list event :=
  drop (List.length (trace s)) (trace s').

Definition replies_since (s s' : state) : list http_reply :=
  drop (List.length (replies s)) (replies s').

(** The number of times the file at [p] was removed. *)
Definition is_deletion (p : string) (ev : event) : bool :=
  match ev with
  | EvUnlink q true => String.eqb q p
  | _ => false
  end.

Definition deletions (p : string) (t : list event) : nat :=
  List.length (List.filter (is_deletion p) t).


(** The shapes of a reply.  A success carries [success: true] and a truthy
    [output]; a failure has a status outside 2xx and a message under
    [error]; a flagged failure also carries [success: false]. *)
Definition is_2xx (code : N) : bool := ((200 <=? code) && (code <=? 299))%N.

Definition success_reply (r : http_reply) : Prop :=
  exists out,
    r = mk_reply 200 [("success", FBool true); ("output", FJson out)] /\
    Js.truthy (Some out) = true.

Definition failure_reply (r : http_reply) : Prop :=
  is_2xx (reply_status r) = false /\
  exists msg, In ("error", FStr msg) (reply_body r).

Definition flagged_failure (r : http_reply) : Prop :=
  failure_reply r /\ In ("success", FBool false) (reply_body r).


(** The token budget of a completion request, under either of its names. *)
Definition token_budget (body : completion_request) : option N :=
  match max_tokens body with
  | Some n => Some n
  | None => max_completion_tokens body
  end.

(** The parameters the specification gives for every completion request:
    temperature 0 and a budget between 1024 and 2048 tokens. *)
Definition specified_parameters (body : completion_request) : Prop :=
  (temperature body == 0)%Q /\
  exists n, token_budget body = Some n /\ (1024 <= n <= 2048)%N.

(** Sanitization in the words of the specification: the characters outside
    the class are stripped. *)
Fixpoint spec_strip (keep : ascii -> bool) (s : string) : string :=
  match s with
  | EmptyString => EmptyString
  | String c s' => if keep c then String c (spec_strip keep s') else spec_strip keep s'
  end.


(** The number of calls to the hosted services. *)
Definition upstream_calls (t : list event) : nat :=
  List.length (List.filter is_upstream t).

(** The bodies sent to the chat-completion service. *)
Fixpoint completion_requests (t : list event) : list completion_request :=
  match t with
  | [] => []
  | EvCompletion body :: t' => body :: completion_requests t'
  | _ :: t' => completion_requests t'
  end.

(** The number of status polls in a trace. *)
Definition count_polls (t : list event) : nat :=
  List.length (List.filter (fun ev => match ev with EvParserPoll _ => true | _ => false end) t).

(** [wp m Q s]: run from [s], the computation [m] ends in an outcome and a
    state that satisfy [Q]. *)
Definition wp {A} (m : M A) (Q : outcome A -> state -> Prop) (s : state) : Prop :=
  Q (fst (m s)) (snd (m s)).


(** ** Mock collaborators, for running the handlers on concrete requests *)

Module Mock.

(** The double quote, and a quoted JSON string without escapes. *)
Definition dq : string := String (ascii_of_nat 34) EmptyString.

Definition quote (s : string) : string := dq +:+ s +:+ dq.

(** A one-field JSON object: its text and its decoded form. *)
Definition body (k v : string) : string := "{" +:+ quote k +:+ ":" +:+ quote v +:+ "}".

Definition answer (code : N) (k v : string) : fetch_response :=
  mk_response code (body k v) (Some (JObj [(k, JStr v)])).

(** The parser's answers: job accepted, job still running, job done. *)
Definition accepted : fetch_response := answer 200 "id" "job-1".

Definition running : fetch_response := answer 400 "detail" "Job not completed yet".

Definition finished (markdown : string) : fetch_response := answer 200 "markdown" markdown.

(** A chat completion whose first choice says [text]. *)
Definition completed (text : string) : fetch_response :=
  mk_response 200 ("{" +:+ quote "choices" +:+ ":[...]}")
    (Some (JObj [("choices",
                  JArr [JObj [("message",
                               JObj [("role", JStr "assistant");
                                     ("content", JStr text)])]])])).

(** A [JSON.stringify] for documents whose strings need no escaping. *)
Fixpoint stringify (j : json) : string :=
  match j with
  | JNull => "null"
  | JBool true => "true"
  | JBool false => "false"
  | JNum z => if (z <? 0)%Z then "-" +:+ Js.string_of_N (Z.abs_N z) else Js.string_of_N (Z.abs_N z)
  | JStr s => quote s
  | JArr l =>
      "[" +:+ (fix items (l : list json) : string :=
                 match l with
                 | [] => EmptyString
                 | [x] => stringify x
                 | x :: l' => stringify x +:+ "," +:+ items l'
                 end) l +:+ "]"
  | JObj fs =>
      "{" +:+ (fix members (fs : list (string * json)) : string :=
                 match fs with
                 | [] => EmptyString
                 | [(k, v)] => quote k +:+ ":" +:+ stringify v
                 | (k, v) :: fs' => quote k +:+ ":" +:+ stringify v +:+ "," +:+ members fs'
                 end) fs +:+ "}"
  end.

(** Collaborators that work: both keys set, the parser accepts the file
    and answers the polls by [poll], the completion service answers by
    [complete], and the PDF libraries return the bytes they are given. *)
Definition services (poll : nat -> fetch_result)
    (complete : completion_request -> fetch_result) : env :=
  {| dirname := "/srv/backend";
     tmpdir := "/tmp";
     LLAMA_CLOUD_API_KEY := Some "llx-test";
     GROQ_API_KEY := Some "gsk-test";
     NODE_ENV := None;
     parser_upload := fun _ _ => FetchOk accepted;
     parser_poll := fun _ n => poll n;
     completion := complete;
     pdf_text := fun bytes => inr bytes;
     poppler_new := None;
     pdf_to_png := fun bytes => inr bytes;
     JSON_stringify := stringify;
     to_String := stringify;
     base64 := fun bytes => bytes |}.


(** A parser that never finishes, and one that finishes at poll [n]. *)
Definition never : nat -> fetch_result := fun _ => FetchOk running.

Definition done_at (n : nat) (markdown : string) : nat -> fetch_result :=
  fun i => if i <? n then FetchOk running else FetchOk (finished markdown).

(** A completion service that always says [text]. *)
Definition says (text : string) : completion_request -> fetch_result :=
  fun _ => FetchOk (completed text).

(** A text of [n] characters. *)
Definition filler (n : N) : string := N.iter n (String "x"%char) EmptyString.

(** The state at the start of a request, with the given files on disk. *)
Definition start (files : list (string * string)) : state :=
  {| fs := list_to_map files;
     clock := 1700000000000;
     polls := 0;
     trace := [];
     replies := [];
     filePath := None;
     tempImagePath := None |}.

(** An upload as multer stores it. *)
Definition stored (name mime : string) : upload_file :=
  {| originalname := name;
     mimetype := mime;
     size := 2048;
     path := "/srv/backend/data/uploads/1700000000000-" +:+ name |}.

End Mock.

(** ** Vocabulary of the further properties *)

(** The characters of a string that are not path separators. *)
Definition no_separator (s : string) : Prop :=
  Forall (fun c => c <> "/"%char /\ c <> "\"%char) (list_ascii_of_string s).

(** A decimal digit. *)
Definition is_digit (c : ascii) : bool := Upload.in_range 48 57 c.

(** The calls to the hosted services among the events of a run. *)
Definition upstream_events (t : list event) : list event := List.filter is_upstream t.

(** [n] status polls for the job [jobId]. *)
Definition polls_of (jobId : string) (n : nat) : list event :=
  List.repeat (EvParserPoll jobId) n.

(** The calls of a request to the hosted-parser variant: none, or one upload
    followed by at most 60 polls and then at most one completion. *)
Definition parser_then_completion (t : list event) : Prop :=
  t = [] \/
  exists name jobId n tail,
    n <= 60 /\ t = EvParserUpload name :: polls_of jobId n ++ tail /\
    (tail = [] \/ exists body, tail = [EvCompletion body]).

(** The calls of a request to one of the sibling servers: at most one
    completion. *)
Definition one_completion_at_most (t : list event) : Prop :=
  t = [] \/ exists body, t = [EvCompletion body].

(** [choices[0].message.content] and [choices[0].text] of a decoded
    completion. *)
Definition first_choice_content (data : json) : jsval :=
  Js.opt_prop (Js.opt_prop (Js.opt_index0 (Js.opt_prop (Some data) "choices")) "message")
              "content".

Definition first_choice_text (data : json) : jsval :=
  Js.opt_prop (Js.opt_index0 (Js.opt_prop (Some data) "choices")) "text".

(** The run from [s] to [s'] sent one completion request, which the
    service answered by [resp]. *)
Definition completion_answered (e : env) (s s' : state) (resp : fetch_response) : Prop :=
  exists body,
    completion_requests (events_since s s') = [body] /\ completion e body = FetchOk resp.

(** A string of white space only. *)
Definition blank (s : string) : Prop :=
  Forall (fun c => Js.is_ws c = true) (list_ascii_of_string s).

(** Collaborators for concrete runs: [base] with other API keys, with
    another [NODE_ENV], and with a parser that answers the upload by
    [answer]. *)
Module Scenario.

Definition with_keys (llama groq : option string) (base : env) : env :=
  {| dirname := dirname base;
     tmpdir := tmpdir base;
     LLAMA_CLOUD_API_KEY := llama;
     GROQ_API_KEY := groq;
     NODE_ENV := NODE_ENV base;
     parser_upload := parser_upload base;
     parser_poll := parser_poll base;
     completion := completion base;
     pdf_text := pdf_text base;
     poppler_new := poppler_new base;
     pdf_to_png := pdf_to_png base;
     JSON_stringify := JSON_stringify base;
     to_String := to_String base;
     base64 := base64 base |}.

Definition with_upload_answer (answer : fetch_result) (base : env) : env :=
  {| dirname := dirname base;
     tmpdir := tmpdir base;
     LLAMA_CLOUD_API_KEY := LLAMA_CLOUD_API_KEY base;
     GROQ_API_KEY := GROQ_API_KEY base;
     NODE_ENV := NODE_ENV base;
     parser_upload := fun _ _ => answer;
     parser_poll := parser_poll base;
     completion := completion base;
     pdf_text := pdf_text base;
     poppler_new := poppler_new base;
     pdf_to_png := pdf_to_png base;
     JSON_stringify := JSON_stringify base;
     to_String := to_String base;
     base64 := base64 base |}.

(** A service that is down: HTTP 503 with a plain text body. *)
Definition unavailable : fetch_response :=
  mk_response 503 "Service Unavailable" None.

Definition down : completion_request -> fetch_result :=
  fun _ => FetchOk unavailable.

(** A completion service that answers with no choice at all. *)
Definition no_choice : fetch_response :=
  mk_response 200 ("{" +:+ Mock.quote "choices" +:+ ":[]}")
    (Some (JObj [("choices", JArr [])])).

Definition silent : completion_request -> fetch_result :=
  fun _ => FetchOk no_choice.

End Scenario.
(** ** Properties of the polling helper *)

Section Polling.

Variable e : env.
Variable jobId : string.

Lemma after_polls_0 (s : state) : after_polls jobId 0 s = s.
Proof.
  destruct s. unfold after_polls. simpl. f_equal.
  - lia.
  - lia.
  - apply app_nil_r.
Qed.

Lemma after_polls_S (k : nat) (s : state) :
  after_polls jobId k (after_polls jobId 1 s) = after_polls jobId (S k) s.
Proof.
  unfold after_polls. simpl fs. simpl clock. simpl polls. simpl trace.
  simpl replies. simpl filePath. simpl tempImagePath.
  f_equal.
  - lia.
  - lia.
  - rewrite <- app_assoc. reflexivity.
Qed.

Lemma count_polls_poll_trace (k : nat) : count_polls (poll_trace jobId k) = k.
Proof.
  induction k as [|k IH]; [reflexivity|].
  unfold count_polls in *. simpl. f_equal. exact IH.
Qed.

Lemma round_state (s : state) :
  (sleep Backend.interval ;; Backend.fetch_status e jobId) s
  = match parser_poll e jobId (polls s) with
    | FetchFail err => (Throw err, after_polls jobId 1 s)
    | FetchOk resp => (Ret resp, after_polls jobId 1 s)
    end.
Proof.
  destruct s as [f c p t r fp ti].
  unfold bind, sleep, Backend.fetch_status, await_fetch, bind, modify, get, after_polls,
    add_event, set_polls, set_clock.
  simpl.
  replace (c + Backend.interval * 1)%N with (c + Backend.interval)%N by lia.
  replace (p + 1) with (S p) by lia.
  rewrite <- app_assoc. simpl.
  destruct (parser_poll e jobId p); reflexivity.
Qed.

End Polling.

Lemma bind_assoc {A B C} (m : M A) (f : A -> M B) (g : B -> M C) (s : state) :
  bind (bind m f) g s = bind m (fun x => bind (f x) g) s.
Proof. unfold bind. destruct (m s) as [[a|err|] s']; reflexivity. Qed.

Lemma not_yet_complete_inv (r : fetch_result) :
  not_yet_complete r = true ->
  exists resp fields,
    r = FetchOk resp /\ resp_status resp = 400%N /\ resp_ok resp = false /\
    resp_json resp = Some (JObj fields) /\
    Js.is_string (Js.assoc "detail" fields) Backend.not_completed = true.
Proof.
  destruct r as [err|resp]; simpl; [discriminate|].
  intros H. apply andb_prop in H. destruct H as [Hs Hj].
  apply N.eqb_eq in Hs.
  destruct (resp_json resp) as [[| | | | |fields]|] eqn:Ej; try discriminate.
  exists resp, fields. repeat split; try assumption.
  unfold resp_ok. rewrite Hs. reflexivity.
Qed.

Lemma poll_loop_pending e jobId (k : nat) :
  forall (fuel : nat) (attempts : N) (s : state),
    (attempts + N.of_nat k <= Backend.maxAttempts)%N ->
    N.to_nat (Backend.maxAttempts - attempts) <= fuel ->
    (forall i, i < k -> not_yet_complete (parser_poll e jobId (polls s + i)) = true) ->
    Backend.poll_loop e jobId fuel attempts s
    = Backend.poll_loop e jobId (fuel - k) (attempts + N.of_nat k)%N (after_polls jobId k s).
Proof.
  induction k as [|k IH]; intros fuel attempts s Hle Hfuel Hpend.
  - rewrite after_polls_0. rewrite Nat.sub_0_r. rewrite N.add_0_r. reflexivity.
  - assert (Hlt : (attempts <? Backend.maxAttempts)%N = true).
    { apply N.ltb_lt. lia. }
    destruct fuel as [|fuel]; [lia|].
    assert (H0 := Hpend 0 ltac:(lia)). rewrite Nat.add_0_r in H0.
    apply not_yet_complete_inv in H0.
    destruct H0 as (resp & fields & Hans & Hst & Hok & Hjson & Hdet).
    cbn [Backend.poll_loop]. rewrite Hlt.
    rewrite <- bind_assoc. unfold bind at 1. rewrite round_state. rewrite Hans.
    rewrite Hok. rewrite Hst. rewrite N.eqb_refl.
    unfold bind at 1. unfold response_json. rewrite Hjson. unfold ret at 1.
    unfold bind at 1. unfold lift, prop, ret. cbn [Js.opt_prop]. rewrite Hdet.
    rewrite (IH fuel (attempts + 1)%N (after_polls jobId 1 s)).
    + rewrite after_polls_S. f_equal. lia.
    + lia.
    + lia.
    + intros i Hi. cbn [polls after_polls].
      replace (polls s + 1 + i) with (polls s + S i) by lia.
      apply Hpend. lia.
Qed.

Lemma poll_trace_app jobId (m n : nat) :
  poll_trace jobId (m + n) = poll_trace jobId m ++ poll_trace jobId n.
Proof.
  induction m as [|m IH]; [reflexivity|].
  cbn [poll_trace Nat.add]. rewrite IH. reflexivity.
Qed.

Lemma after_polls_compose jobId (m n : nat) (s : state) :
  after_polls jobId n (after_polls jobId m s) = after_polls jobId (m + n) s.
Proof.
  unfold after_polls. cbn [fs clock polls trace replies filePath tempImagePath].
  f_equal.
  - lia.
  - lia.
  - rewrite poll_trace_app. rewrite <- app_assoc. reflexivity.
Qed.

Section PollingProtocol.

Variable e : env.
Variable jobId : jsval.

Let id : string := template e jobId.

(** After [k] pending polls the helper stands before poll [k + 1]. *)
Lemma pollForResult_at (s : state) (k : nat) :
  k < 60 ->
  (forall i, i < k -> not_yet_complete (parser_poll e id (polls s + i)) = true) ->
  Backend.pollForResult e jobId s
  = match parser_poll e id (polls s + k) with
    | FetchFail err => (Throw err, after_polls id (S k) s)
    | FetchOk response =>
        (if resp_ok response then
           result <- response_json response ;;
           lift (prop result "markdown")
         else if (resp_status response =? 400)%N then
           error <- response_json response ;;
           detail <- lift (prop error "detail") ;;
           if Js.is_string detail Backend.not_completed then
             Backend.poll_loop e id (59 - k) (N.of_nat k + 1)%N
           else
             throw (Error ("Error: " +:+ JSON_stringify e error))
         else
           throw (Error ("Error checking job status ("
                         +:+ Js.string_of_N (resp_status response)
                         +:+ "): " +:+ resp_text response)))
          (after_polls id (S k) s)
    end.
Proof.
  intros Hk Hpend. unfold Backend.pollForResult. fold id.
  rewrite (poll_loop_pending e id k); [| unfold Backend.maxAttempts; lia | lia | exact Hpend].
  change (N.to_nat Backend.maxAttempts) with 60.
  destruct (60 - k) as [|fuel] eqn:Efuel; [lia|].
  assert (Hlt : (0 + N.of_nat k <? Backend.maxAttempts)%N = true).
  { apply N.ltb_lt. unfold Backend.maxAttempts. lia. }
  cbn [Backend.poll_loop]. rewrite Hlt.
  rewrite <- bind_assoc. unfold bind at 1. rewrite round_state.
  rewrite after_polls_compose. rewrite Nat.add_1_r. cbn [polls after_polls].
  replace (59 - k) with fuel by lia. rewrite N.add_0_l.
  destruct (parser_poll e id (polls s + k)); reflexivity.
Qed.

Lemma pollForResult_timeout (s : state) :
  (forall i, i < 60 -> not_yet_complete (parser_poll e id (polls s + i)) = true) ->
  Backend.pollForResult e jobId s = (Throw Backend.timeout_error, after_polls id 60 s).
Proof.
  intros Hpend. unfold Backend.pollForResult. fold id.
  rewrite (poll_loop_pending e id 60); [| unfold Backend.maxAttempts; lia | lia | exact Hpend].
  change (N.to_nat Backend.maxAttempts - 60) with 0.
  reflexivity.
Qed.

End PollingProtocol.

Lemma first_not_pending (f : nat -> bool) (n : nat) :
  (forall i, i < n -> f i = true) \/
  (exists k, k < n /\ (forall i, i < k -> f i = true) /\ f k = false).
Proof.
  induction n as [|n IH].
  - left. intros i Hi. lia.
  - destruct IH as [Hall | (k & Hk & Hbefore & Hat)].
    + destruct (f n) eqn:En.
      * left. intros i Hi. destruct (decide (i = n)) as [->|Hne]; [exact En|].
        apply Hall. lia.
      * right. exists n. split; [lia|]. split; assumption.
    + right. exists k. split; [lia|]. split; assumption.
Qed.

(** An answer that is neither a success nor the marker ends the polling
    with an error, at once. *)
Lemma pollForResult_refused (e : env) (jobId : jsval) (s : state) (k : nat)
    (resp : fetch_response) :
  k < 60 ->
  (forall i, i < k -> not_yet_complete (parser_poll e (template e jobId) (polls s + i)) = true) ->
  parser_poll e (template e jobId) (polls s + k) = FetchOk resp ->
  resp_ok resp = false ->
  not_yet_complete (FetchOk resp) = false ->
  exists err,
    Backend.pollForResult e jobId s = (Throw err, after_polls (template e jobId) (S k) s).
Proof.
  intros Hk Hpend Hans Hok Hnot.
  rewrite (pollForResult_at e jobId s k Hk Hpend), Hans, Hok.
  cbn in Hnot.
  destruct (resp_status resp =? 400)%N.
  - unfold bind, response_json.
    destruct (resp_json resp) as [j|].
    + destruct j; cbn; try (eexists; reflexivity).
      cbn in Hnot. rewrite Hnot. eexists; reflexivity.
    + cbn. eexists; reflexivity.
  - eexists; reflexivity.
Qed.

(** The answer that ends the polling: the helper stops at once, with a
    result or an error, and never continues. *)
Lemma pollForResult_decided (e : env) (jobId : jsval) (s : state) (k : nat) :
  k < 60 ->
  (forall i, i < k -> not_yet_complete (parser_poll e (template e jobId) (polls s + i)) = true) ->
  not_yet_complete (parser_poll e (template e jobId) (polls s + k)) = false ->
  exists o, o <> Diverge /\
    Backend.pollForResult e jobId s = (o, after_polls (template e jobId) (S k) s).
Proof.
  intros Hk Hpend Hnot.
  destruct (parser_poll e (template e jobId) (polls s + k)) as [err|resp] eqn:Hans.
  { rewrite (pollForResult_at e jobId s k Hk Hpend), Hans.
    exists (Throw err). split; [discriminate | reflexivity]. }
  destruct (resp_ok resp) eqn:Hok.
  - rewrite (pollForResult_at e jobId s k Hk Hpend), Hans, Hok.
    unfold bind, response_json.
    destruct (resp_json resp) as [j|].
    + destruct j; cbn; eexists; (split; [|reflexivity]); discriminate.
    + cbn. eexists; (split; [|reflexivity]); discriminate.
  - destruct (pollForResult_refused e jobId s k resp Hk Hpend Hans Hok Hnot) as [err Hrun].
    exists (Throw err). split; [discriminate | exact Hrun].
Qed.

(** The helper always stops, after at most 60 polls, and touches nothing
    but the clock, the poll counter and the trace. *)
Lemma pollForResult_total (e : env) (jobId : jsval) (s : state) :
  exists n o, n <= 60 /\ o <> Diverge /\
    Backend.pollForResult e jobId s = (o, after_polls (template e jobId) n s).
Proof.
  destruct (first_not_pending
              (fun i => not_yet_complete (parser_poll e (template e jobId) (polls s + i))) 60)
    as [Hall | (k & Hk & Hbefore & Hat)].
  - exists 60, (Throw Backend.timeout_error). split; [lia|]. split; [discriminate|].
    apply pollForResult_timeout. exact Hall.
  - destruct (pollForResult_decided e jobId s k Hk Hbefore Hat) as (o & Ho & Hrun).
    exists (S k), o. split; [lia|]. split; assumption.
Qed.


Example poll_never_completes :
  let run := Backend.pollForResult (Mock.services Mock.never (Mock.says "ok"))
               (Some (JStr "job-1")) (Mock.start []) in
  fst run = Throw Backend.timeout_error /\ count_polls (trace (snd run)) = 60.
Proof. vm_compute. split; reflexivity. Qed.

Example poll_completes_third :
  let run := Backend.pollForResult (Mock.services (Mock.done_at 2 "# Title") (Mock.says "ok"))
               (Some (JStr "job-1")) (Mock.start []) in
  fst run = Ret (Some (JStr "# Title")) /\ count_polls (trace (snd run)) = 3 /\
  clock (snd run) = (1700000000000 + 15000)%N.
Proof. vm_compute. repeat split; reflexivity. Qed.


(** ** A weakest-precondition calculus for handler code *)

Section WpRules.

Context {A B : Type}.

Lemma wp_ret (a : A) (Q : outcome A -> state -> Prop) (s : state) :
  Q (Ret a) s -> wp (ret a) Q s.
Proof. intros H. exact H. Qed.

Lemma wp_throw (err : js_error) (Q : outcome A -> state -> Prop) (s : state) :
  Q (Throw err) s -> wp (throw err) Q s.
Proof. intros H. exact H. Qed.

Lemma wp_bind (m : M A) (k : A -> M B) (Q : outcome B -> state -> Prop) (s : state) :
  wp m (fun o s' =>
          match o with
          | Ret a => wp (k a) Q s'
          | Throw err => Q (Throw err) s'
          | Diverge => Q Diverge s'
          end) s ->
  wp (bind m k) Q s.
Proof.
  unfold wp, bind. destruct (m s) as [[a|err|] s']; cbn; intros H; exact H.
Qed.

Lemma wp_try_catch (m : M A) (h : js_error -> M A) (Q : outcome A -> state -> Prop)
    (s : state) :
  wp m (fun o s' =>
          match o with
          | Throw err => wp (h err) Q s'
          | Ret a => Q (Ret a) s'
          | Diverge => Q Diverge s'
          end) s ->
  wp (try_catch m h) Q s.
Proof.
  unfold wp, try_catch. destruct (m s) as [[a|err|] s']; cbn; intros H; exact H.
Qed.

Lemma wp_try_finally (m : M A) (f : M unit) (Q : outcome A -> state -> Prop) (s : state) :
  wp m (fun o s' =>
          match o with
          | Diverge => Q Diverge s'
          | _ =>
              wp f (fun o2 s'' =>
                      match o2 with
                      | Ret _ => Q o s''
                      | Throw err => Q (Throw err) s''
                      | Diverge => Q Diverge s''
                      end) s'
          end) s ->
  wp (try_finally m f) Q s.
Proof.
  unfold wp, try_finally.
  destruct (m s) as [[a|err|] s']; cbn; try (intros H; exact H);
    destruct (f s') as [[u|err2|] s'']; cbn; intros H; exact H.
Qed.

Lemma wp_lift (r : js_error + A) (Q : outcome A -> state -> Prop) (s : state) :
  match r with
  | inl err => Q (Throw err) s
  | inr a => Q (Ret a) s
  end ->
  wp (lift r) Q s.
Proof. destruct r; intros H; exact H. Qed.

Lemma wp_mono (m : M A) (Q Q' : outcome A -> state -> Prop) (s : state) :
  (forall o s', Q o s' -> Q' o s') -> wp m Q s -> wp m Q' s.
Proof. intros HQ H. apply HQ. exact H. Qed.

End WpRules.

Lemma wp_get (Q : outcome state -> state -> Prop) (s : state) :
  Q (Ret s) s -> wp get Q s.
Proof. intros H. exact H. Qed.

Lemma wp_modify (f : state -> state) (Q : outcome unit -> state -> Prop) (s : state) :
  Q (Ret tt) (f s) -> wp (modify f) Q s.
Proof. intros H. exact H. Qed.

(** The polling helper, by its totality. *)
Lemma wp_pollForResult (e : env) (jobId : jsval) (Q : outcome jsval -> state -> Prop)
    (s : state) :
  (forall n o, n <= 60 -> o <> Diverge -> Q o (after_polls (template e jobId) n s)) ->
  wp (Backend.pollForResult e jobId) Q s.
Proof.
  intros H. unfold wp.
  destruct (pollForResult_total e jobId s) as (n & o & Hn & Ho & Hrun).
  rewrite Hrun. cbn. apply H; assumption.
Qed.

#[global] Opaque Backend.pollForResult.

Create HintDb handler_code.

#[global] Hint Unfold fs_readFile fs_existsSync fs_unlink fs_writeFile Date_now sleep
  res_json res_status_json await_fetch response_json
  Sibling.first_content Sibling.errorHandler Sibling.unlink_quietly
  Backend.uploadFileToLlamaParse Backend.cleanup Backend.process Backend.handler
  Backend.errorHandler
  Part000.pdfToPng Part000.build_messages Part000.process Part000.cleanup Part000.handler
  Part001.process Part001.cleanup Part001.handler
  Part002.errorHandler Part002.process Part002.on_error Part002.handler : handler_code.

Ltac state_simpl :=
  cbn [fs clock polls trace replies filePath tempImagePath
       set_fs set_clock set_polls add_event add_reply set_filePath set_tempImagePath
       after_polls fmap option_fmap option_map req_file body_prompt negb
       err_multer err_message err_code err_path Error TypeError ENOENT].

Lemma truthy_path_join (a b : string) : Js.truthy_string (path_join a b) = true.
Proof. destruct a; reflexivity. Qed.

Ltac use_lookups :=
  repeat match goal with
         | H : ?m !! ?k = _ |- context [?m !! ?k] => rewrite H
         end;
  rewrite ?lookup_delete_eq, ?truthy_path_join.

(** One step of symbolic execution. *)
Ltac wp_step :=
  state_simpl; use_lookups; cbv beta iota;
  lazymatch goal with
  | |- wp (bind _ _) _ _ => apply wp_bind
  | |- wp (ret _) _ _ => apply wp_ret
  | |- wp (throw _) _ _ => apply wp_throw
  | |- wp get _ _ => apply wp_get
  | |- wp (modify _) _ _ => apply wp_modify
  | |- wp (lift _) _ _ => apply wp_lift
  | |- wp (try_catch _ _) _ _ => apply wp_try_catch
  | |- wp (try_finally _ _) _ _ => apply wp_try_finally
  | |- wp (Backend.pollForResult _ _) _ _ =>
      apply wp_pollForResult;
      let n := fresh "n" in let o := fresh "o" in
      let Hn := fresh "Hn" in let Ho := fresh "Ho" in
      intros n o Hn Ho; destruct o; [| |congruence]
  | |- wp (if negb ?b then _ else _) _ _ =>
      first [ match goal with H : b = _ |- _ => rewrite H end
            | let E := fresh "E" in destruct b eqn:E ];
      cbn [negb]
  | |- wp (if ?b then _ else _) _ _ =>
      first [ match goal with H : b = _ |- _ => rewrite H end
            | let E := fresh "E" in destruct b eqn:E ]
  | |- wp (match ?x with _ => _ end) _ _ =>
      first [ match goal with H : x = _ |- _ => rewrite H end
            | let E := fresh "E" in destruct x eqn:E ]
  | |- match ?x with _ => _ end =>
      first [ match goal with H : x = _ |- _ => rewrite H end
            | let E := fresh "E" in destruct x eqn:E ]
  | |- wp _ _ _ => progress autounfold with handler_code
  end;
  cbv beta iota.

Ltac wp_run := repeat wp_step.

(** ** Reading the trace and the replies of a run *)

Lemma events_since_app (s s' : state) (new : list event) :
  trace s' = trace s ++ new -> events_since s s' = new.
Proof. intros H. unfold events_since. rewrite H. apply drop_app_length. Qed.

Lemma events_since_same (s s' : state) :
  trace s' = trace s -> events_since s s' = [].
Proof. intros H. unfold events_since. rewrite H. apply drop_all. Qed.

Lemma replies_since_app (s s' : state) (new : list http_reply) :
  replies s' = replies s ++ new -> replies_since s s' = new.
Proof. intros H. unfold replies_since. rewrite H. apply drop_app_length. Qed.





Lemma completion_requests_app (t1 t2 : list event) :
  completion_requests (t1 ++ t2) = completion_requests t1 ++ completion_requests t2.
Proof.
  induction t1 as [|ev t1 IH]; [reflexivity|].
  destruct ev; cbn [completion_requests app]; rewrite IH; reflexivity.
Qed.

Lemma completion_requests_poll_trace (jobId : string) (n : nat) :
  completion_requests (poll_trace jobId n) = [].
Proof. induction n as [|n IH]; [reflexivity|]. exact IH. Qed.

Lemma truthy_string_nonempty (p : string) :
  p <> EmptyString -> Js.truthy_string p = true.
Proof. destruct p; [congruence | reflexivity]. Qed.

Lemma truthy_Some (v : jsval) : Js.truthy v = true -> exists j, v = Some j.
Proof. destruct v as [j|]; [intros _; exists j; reflexivity | discriminate]. Qed.



(** The events, replies and completion requests of a run, read off its
    final state. *)
Ltac read_events :=
  first [ erewrite events_since_app
            by (state_simpl; rewrite <- ?app_assoc; reflexivity)
        | erewrite events_since_same by (state_simpl; reflexivity) ].

Ltac read_replies :=
  erewrite replies_since_app by (state_simpl; rewrite <- ?app_assoc; reflexivity).

Ltac read_requests :=
  read_events;
  rewrite ?completion_requests_app, ?completion_requests_poll_trace;
  cbn [completion_requests app].

(** A statement about the final state of a handler, as a [wp]. *)
Ltac as_wp handler :=
  match goal with
  | |- context [handler ?e ?req ?s] =>
      pattern (snd (handler e req s));
      match goal with
      | |- ?Q _ => change (wp (handler e req) (fun _ s' => Q s') s)
      end
  end.

(** ** Clean-up of the upload and of the rasterized page *)





Section Cleanup.

Variable e : env.
Variable req : request.
Variable s : state.
Variable file : upload_file.
Variable bytes : string.

Hypothesis Hfile : req_file req = Some file.
Hypothesis Hpath : path file <> EmptyString.
Hypothesis Hstored : fs s !! path file = Some bytes.






End Cleanup.


Example backend_run_end_to_end :
  let e := Mock.services (Mock.done_at 1 "# Invoice") (Mock.says "Total: 42") in
  let file := Mock.stored "scan.pdf" "application/pdf" in
  let s := Mock.start [(path file, "%PDF-1.4")] in
  let s' := snd (Backend.handler e (mk_req (Some file) (Some "extract text")) s) in
  replies s' = [mk_reply 200 [("success", FBool true); ("output", FJson (JStr "Total: 42"))]]
  /\ fs s' !! path file = None
  /\ deletions (path file) (trace s') = 1.
Proof. vm_compute. repeat split; reflexivity. Qed.


(** ** C3: requests without a file *)


Example missing_file_default_reply :
  let e := Mock.services Mock.never (Mock.says "A senior engineer.") in
  let s := Mock.start [(Part002.default_pdf e, "Jane Doe, engineer")] in
  replies (snd (Part002.handler e (mk_req None (Some "Who is this?")) s))
  = [mk_reply 200 [("success", FBool true); ("output", FJson (JStr "A senior engineer."))]].
Proof. vm_compute. reflexivity. Qed.



(** ** C4: requests without a prompt *)


Example missing_prompt_run :
  let e := Mock.services Mock.never (Mock.says "unused") in
  let file := Mock.stored "scan.pdf" "application/pdf" in
  let s' := snd (Backend.handler e (mk_req (Some file) None)
                   (Mock.start [(path file, "%PDF-1.4")])) in
  replies s' = [mk_reply 500 [("success", FBool false); ("error", FStr "No prompt provided.")]]
  /\ trace s' = [EvUnlink (path file) true].
Proof. vm_compute. split; reflexivity. Qed.

(** ** C5: the parameters of the completion request *)

Ltac request_params :=
  read_requests;
  repeat constructor.

Lemma backend_request_params (e : env) (req : request) (s : state) :
  wp (Backend.handler e req)
     (fun _ s' =>
        Forall (fun body => model body = "llama3-70b-8192" /\ temperature body = 0%Q /\
                            max_tokens body = Some 2048%N /\
                            max_completion_tokens body = None)
               (completion_requests (events_since s s'))) s.
Proof. wp_run. all: request_params. Qed.

Lemma part000_request_params (e : env) (req : request) (s : state) :
  wp (Part000.handler e req)
     (fun _ s' =>
        Forall (fun body => model body = Sibling.model_id /\ temperature body = 0%Q /\
                            max_tokens body = Some 1024%N /\
                            max_completion_tokens body = None)
               (completion_requests (events_since s s'))) s.
Proof. wp_run. all: request_params. Qed.

Lemma part001_request_params (e : env) (req : request) (s : state) :
  wp (Part001.handler e req)
     (fun _ s' =>
        Forall (fun body => model body = Sibling.model_id /\ temperature body = 0%Q /\
                            max_tokens body = Some 1024%N /\
                            max_completion_tokens body = None)
               (completion_requests (events_since s s'))) s.
Proof. wp_run. all: request_params. Qed.

Lemma part002_request_params (e : env) (req : request) (s : state) :
  wp (Part002.handler e req)
     (fun _ s' =>
        Forall (fun body => model body = Sibling.model_id /\ temperature body = 0.7%Q /\
                            max_tokens body = None /\
                            max_completion_tokens body = Some 1024%N)
               (completion_requests (events_since s s'))) s.
Proof. wp_run. all: request_params. Qed.

(** C5 fails in part_002: the request it sends for an uploaded resume has
    temperature 0.7. *)
Lemma part002_temperature_not_zero :
  let e := Mock.services Mock.never (Mock.says "A senior engineer.") in
  let file := Mock.stored "resume.pdf" "application/pdf" in
  let s := Mock.start [(path file, "Jane Doe, engineer")] in
  let s' := snd (Part002.handler e (mk_req (Some file) (Some "Who is this?")) s) in
  ~ Forall specified_parameters (completion_requests (events_since s s')).
Proof.
  intros e file s s' Hall.
  assert (Hsent : exists msgs,
             completion_requests (events_since s s')
             = [ {| model := Sibling.model_id; messages := msgs; temperature := 0.7;
                    max_tokens := None; max_completion_tokens := Some 1024%N;
                    top_p := Some 1%Q; stream := Some false; stop_null := true |} ]).
  { eexists. vm_compute. reflexivity. }
  destruct Hsent as [msgs Hsent]. rewrite Hsent in Hall.
  apply Forall_cons_1 in Hall. destruct Hall as [[Htemp _] _].
  vm_compute in Htemp. discriminate Htemp.
Qed.

(** C5, amended.  Every completion request carries a fixed model identifier
    and a fixed token budget: [max_tokens] 2048 in the hosted-parser variant
    and 1024 in part_000 and part_001, [max_completion_tokens] 1024 in
    part_002.  The temperature is 0 in the hosted-parser variant, part_000
    and part_001, and 0.7 in part_002. *)
Theorem completion_request_parameters (e : env) (req : request) (s : state) :
  Forall (fun body => model body = "llama3-70b-8192" /\ temperature body = 0%Q /\
                      max_tokens body = Some 2048%N /\ max_completion_tokens body = None)
         (completion_requests (events_since s (snd (Backend.handler e req s))))
  /\
  Forall (fun body => model body = Sibling.model_id /\ temperature body = 0%Q /\
                      max_tokens body = Some 1024%N /\ max_completion_tokens body = None)
         (completion_requests (events_since s (snd (Part000.handler e req s))))
  /\
  Forall (fun body => model body = Sibling.model_id /\ temperature body = 0%Q /\
                      max_tokens body = Some 1024%N /\ max_completion_tokens body = None)
         (completion_requests (events_since s (snd (Part001.handler e req s))))
  /\
  Forall (fun body => model body = Sibling.model_id /\ temperature body = 0.7%Q /\
                      max_tokens body = None /\ max_completion_tokens body = Some 1024%N)
         (completion_requests (events_since s (snd (Part002.handler e req s)))).
Proof.
  split; [exact (backend_request_params e req s)|].
  split; [exact (part000_request_params e req s)|].
  split; [exact (part001_request_params e req s)|].
  exact (part002_request_params e req s).
Qed.

Example backend_request_sent :
  let e := Mock.services (Mock.done_at 1 "# Invoice") (Mock.says "Total: 42") in
  let file := Mock.stored "scan.pdf" "application/pdf" in
  let s := Mock.start [(path file, "%PDF-1.4")] in
  List.length (completion_requests
                 (trace (snd (Backend.handler e (mk_req (Some file) (Some "extract text")) s))))
  = 1.
Proof. vm_compute. reflexivity. Qed.

(** ** C6: uploads the middleware refuses *)

Example disallowed_type_run :
  let e := Mock.services Mock.never (Mock.says "unused") in
  let part := Upload.mk_incoming "notes.txt" "text/plain" 120 "hello" in
  replies (snd (Part000.route e (Some part) (Some "extract text") (Mock.start [])))
  = [mk_reply 500 [("error", FStr "Only image and PDF files are allowed.")]].
Proof. vm_compute. reflexivity. Qed.

(** C6 fails in part_002: a PDF of 6 MB, above the limit of 5 MB, is
    answered with HTTP 500, since its error handler knows no other status. *)
Lemma oversize_pdf_answered_500 :
  let e := Mock.services Mock.never (Mock.says "unused") in
  let part := Upload.mk_incoming "big.pdf" "application/pdf" (6 * 1024 * 1024) "%PDF-1.4" in
  let s' := snd (Part002.route e (Some part) (Some "Who is this?") (Mock.start [])) in
  (Part002.fileSize < Upload.in_size part)%N /\
  ~ Forall (fun r => reply_status r = 400%N) (replies s').
Proof.
  intros e part s'. split; [reflexivity|].
  intros Hall.
  assert (Hsent : exists body, replies s' = [mk_reply 500 body]).
  { eexists. vm_compute. reflexivity. }
  destruct Hsent as [body Hsent]. rewrite Hsent in Hall.
  apply Forall_cons_1 in Hall. destruct Hall as [Hstatus _].
  discriminate Hstatus.
Qed.

(** C6, amended.  An upload of an accepted type that is larger than the
    configured ceiling (25 MB, 10 MB and 5 MB) is refused by the middleware
    with multer's size error, which the hosted-parser variant, part_000 and
    part_001 answer with HTTP 400; the handler does not run, so no hosted
    service is called.  In part_002 every upload the middleware refuses, for its size or
    for its type, is answered with HTTP 500. *)
Theorem refused_upload_status (e : env) (part : Upload.incoming_file)
    (prompt : option string) (s : state) :
  (Backend.fileFilter (Upload.in_mimetype part) = inr true ->
   (Backend.fileSize < Upload.in_size part)%N ->
   let s' := snd (Backend.route e (Some part) prompt s) in
   replies_since s s' = [mk_reply 400 [("error", FStr "File too large")]] /\
   upstream_calls (events_since s s') = 0)
  /\
  (Part000.fileFilter (Upload.in_mimetype part) = inr true ->
   (Part000.fileSize < Upload.in_size part)%N ->
   let s' := snd (Part000.route e (Some part) prompt s) in
   replies_since s s'
   = [mk_reply 400 [("error", FStr "File upload error: File too large")]] /\
   upstream_calls (events_since s s') = 0)
  /\
  (Part001.fileFilter (Upload.in_mimetype part) = inr true ->
   (Part001.fileSize < Upload.in_size part)%N ->
   let s' := snd (Part001.route e (Some part) prompt s) in
   replies_since s s'
   = [mk_reply 400 [("error", FStr "File upload error: File too large")]] /\
   upstream_calls (events_since s s') = 0)
  /\
  (Part002.fileFilter (Upload.in_mimetype part) <> inr true \/
   (Part002.fileSize < Upload.in_size part)%N ->
   let s' := snd (Part002.route e (Some part) prompt s) in
   (exists msg,
       replies_since s s'
       = [mk_reply 500 [("error", FStr "Something went wrong!"); ("message", FStr msg)]]) /\
   upstream_calls (events_since s s') = 0).
Proof.
  split; [|split; [|split]].
  - intros Haccept Hsize. apply N.ltb_lt in Hsize. cbv zeta.
    unfold Backend.route, Upload.single, bind, try_catch, lift, Date_now, get, ret, throw.
    rewrite Haccept, Hsize. cbn.
    split; [read_replies; reflexivity | read_events; reflexivity].
  - intros Haccept Hsize. apply N.ltb_lt in Hsize. cbv zeta.
    unfold Part000.route, Upload.single, bind, try_catch, lift, Date_now, get, ret, throw.
    rewrite Haccept, Hsize. cbn.
    split; [read_replies; reflexivity | read_events; reflexivity].
  - intros Haccept Hsize. apply N.ltb_lt in Hsize. cbv zeta.
    unfold Part001.route, Upload.single, bind, try_catch, lift, Date_now, get, ret, throw.
    rewrite Haccept, Hsize. cbn.
    split; [read_replies; reflexivity | read_events; reflexivity].
  - intros Hrefused. cbv zeta.
    unfold Part002.route, Upload.single, bind, try_catch, lift, Date_now, get, ret, throw.
    unfold Part002.fileFilter in *.
    destruct (String.eqb (Upload.in_mimetype part) "application/pdf").
    + destruct Hrefused as [Hfilter|Hsize]; [congruence|].
      apply N.ltb_lt in Hsize. rewrite Hsize. cbn.
      split; [eexists; read_replies; reflexivity | read_events; reflexivity].
    + cbn. split; [eexists; read_replies; reflexivity | read_events; reflexivity].
Qed.

(** The amended C6 at work: a PNG of 30 MB sent to the hosted-parser
    variant, and a PDF of 6 MB sent to part_002. *)
Lemma refused_upload_status_witness :
  let e := Mock.services Mock.never (Mock.says "unused") in
  let png := Upload.mk_incoming "photo.png" "image/png" (30 * 1024 * 1024) "PNG" in
  let pdf := Upload.mk_incoming "big.pdf" "application/pdf" (6 * 1024 * 1024) "%PDF-1.4" in
  replies_since (Mock.start [])
    (snd (Backend.route e (Some png) (Some "extract text") (Mock.start [])))
  = [mk_reply 400 [("error", FStr "File too large")]]
  /\
  upstream_calls
    (events_since (Mock.start [])
       (snd (Part002.route e (Some pdf) (Some "Who is this?") (Mock.start [])))) = 0.
Proof.
  intros e png pdf. split.
  - destruct (refused_upload_status e png (Some "extract text") (Mock.start []))
      as [Hbackend _].
    destruct (Hbackend eq_refl eq_refl) as [Hreply _]. exact Hreply.
  - destruct (refused_upload_status e pdf (Some "Who is this?") (Mock.start []))
      as (_ & _ & _ & Hpart002).
    destruct (Hpart002 (or_intror eq_refl)) as [_ Hevents]. exact Hevents.
Defined.

(** ** C7: the shape of the replies *)

Ltac failure_leaf :=
  split; [ first [ reflexivity | assumption ]
         | eexists; cbn [object reply_body In];
           first [ left; reflexivity | right; left; reflexivity ] ].

Ltac success_leaf :=
  repeat match goal with
         | H : Js.truthy ?v = true |- _ =>
             lazymatch v with
             | Some _ => fail
             | _ => let j := fresh "j" in let Hj := fresh "Hj" in
                    destruct (truthy_Some v H) as [j Hj]; rewrite Hj in *; clear Hj
             end
         end;
  eexists; split; [ reflexivity | assumption ].

Ltac reply_leaf flagged :=
  split; [reflexivity|];
  eexists; split; [read_replies; reflexivity|];
  first [ left; success_leaf
        | right; flagged; failure_leaf ].

Lemma backend_reply_envelope (e : env) (req : request) (s : state) :
  wp (Backend.handler e req)
     (fun o s' => o = Ret tt /\
        exists r, replies_since s s' = [r] /\ (success_reply r \/ flagged_failure r)) s.
Proof.
  wp_run.
  all: reply_leaf ltac:(split; [| cbn [object reply_body In]; left; reflexivity]).
Qed.

Lemma part000_reply_envelope (e : env) (req : request) (s : state) :
  wp (Part000.handler e req)
     (fun o s' => o = Ret tt /\
        exists r, replies_since s s' = [r] /\ (success_reply r \/ failure_reply r)) s.
Proof. wp_run. all: reply_leaf idtac. Qed.

Lemma part001_reply_envelope (e : env) (req : request) (s : state) :
  wp (Part001.handler e req)
     (fun o s' => o = Ret tt /\
        exists r, replies_since s s' = [r] /\ (success_reply r \/ failure_reply r)) s.
Proof. wp_run. all: reply_leaf idtac. Qed.

Lemma part002_reply_envelope (e : env) (req : request) (s : state) :
  wp (Part002.handler e req)
     (fun o s' => o = Ret tt /\
        exists r, replies_since s s' = [r] /\ (success_reply r \/ failure_reply r)) s.
Proof. wp_run. all: reply_leaf idtac. Qed.

(** C7 fails in part_000: the failure it sends for a request without a file
    has no [success] field. *)
Lemma part000_failure_not_flagged :
  let e := Mock.services Mock.never (Mock.says "unused") in
  let s' := snd (Part000.handler e (mk_req None None) (Mock.start [])) in
  ~ Forall (fun r => success_reply r \/ flagged_failure r) (replies s').
Proof.
  intros e s' Hall.
  assert (Hsent : replies s' = [mk_reply 500 [("error", FStr "No file uploaded.")]]).
  { vm_compute. reflexivity. }
  rewrite Hsent in Hall.
  apply Forall_cons_1 in Hall. destruct Hall as [[Hsuccess | [_ Hflag]] _].
  - destruct Hsuccess as (out & Hshape & _). discriminate Hshape.
  - cbn in Hflag. destruct Hflag as [Hflag | []]. discriminate Hflag.
Qed.

(** C7, amended.  Every handler returns after sending exactly one reply.
    A success is HTTP 200 with [{success: true, output}] where the output is
    the truthy completion content, so never empty or missing.  A failure has
    a status outside 2xx and its message under [error]; only the
    hosted-parser variant adds [success: false] to it. *)
Theorem reply_envelope (e : env) (req : request) (s : state) :
  (fst (Backend.handler e req s) = Ret tt /\
   exists r, replies_since s (snd (Backend.handler e req s)) = [r] /\
             (success_reply r \/ flagged_failure r))
  /\
  (fst (Part000.handler e req s) = Ret tt /\
   exists r, replies_since s (snd (Part000.handler e req s)) = [r] /\
             (success_reply r \/ failure_reply r))
  /\
  (fst (Part001.handler e req s) = Ret tt /\
   exists r, replies_since s (snd (Part001.handler e req s)) = [r] /\
             (success_reply r \/ failure_reply r))
  /\
  (fst (Part002.handler e req s) = Ret tt /\
   exists r, replies_since s (snd (Part002.handler e req s)) = [r] /\
             (success_reply r \/ failure_reply r)).
Proof.
  split; [exact (backend_reply_envelope e req s)|].
  split; [exact (part000_reply_envelope e req s)|].
  split; [exact (part001_reply_envelope e req s)|].
  exact (part002_reply_envelope e req s).
Qed.

Example empty_completion_is_an_error :
  let e := Mock.services (Mock.done_at 0 "# Invoice") (Mock.says EmptyString) in
  let file := Mock.stored "scan.pdf" "application/pdf" in
  let s := Mock.start [(path file, "%PDF-1.4")] in
  replies (snd (Backend.handler e (mk_req (Some file) (Some "extract text")) s))
  = [mk_reply 500 [("success", FBool false);
                   ("error", FStr "No output text received from Groq")]].
Proof. vm_compute. reflexivity. Qed.

(** ** C8: the name a stored upload gets *)

Lemma sanitize_length (name : string) :
  String.length (Upload.sanitize name) = String.length name.
Proof.
  unfold Upload.sanitize.
  induction name as [|c name IH]; [reflexivity|].
  cbn [Js.replace_outside String.length]. rewrite IH. reflexivity.
Qed.

Lemma sanitize_get (name : string) (i : nat) :
  String.get i (Upload.sanitize name)
  = (fun c => if Upload.safe_char c then c else "_"%char) <$> String.get i name.
Proof.
  unfold Upload.sanitize.
  revert i. induction name as [|c name IH]; intros i; [reflexivity|].
  destruct i as [|i]; [reflexivity|].
  cbn [Js.replace_outside String.get]. apply IH.
Qed.

Lemma sanitize_chars (name : string) :
  Forall (fun c => Upload.safe_char c = true \/ c = "_"%char)
         (list_ascii_of_string (Upload.sanitize name)).
Proof.
  unfold Upload.sanitize.
  induction name as [|c name IH]; [constructor|].
  cbn [Js.replace_outside list_ascii_of_string].
  constructor; [|exact IH].
  destruct (Upload.safe_char c) eqn:Hc; [left; exact Hc | right; reflexivity].
Qed.

Example filename_of_spaced_name :
  Upload.filename 1700000000000 "my file (1).png" = "1700000000000-my_file__1_.png".
Proof. vm_compute. reflexivity. Qed.

Example filename_of_traversal :
  Upload.filename 1700000000000 "../../etc/passwd" = "1700000000000-.._.._etc_passwd".
Proof. vm_compute. reflexivity. Qed.

(** C8 fails as worded: the characters outside the class are not stripped
    from the name, each is replaced by an underscore. *)
Lemma filename_keeps_a_placeholder :
  Upload.filename 1700000000000 "my file.png"
  <> Js.string_of_N 1700000000000 +:+ "-" +:+ spec_strip Upload.safe_char "my file.png".
Proof. vm_compute. discriminate. Qed.

(** C8, amended.  The stored name is the timestamp, a dash and the
    sanitized original name, where sanitization replaces every character
    outside [[a-zA-Z0-9.-]] by an underscore: the length is kept, a
    character of the class stays where it is, and the result holds only
    characters of the class and underscores. *)
Theorem stored_filename (now : N) (name : string) :
  Upload.filename now name = Js.string_of_N now +:+ "-" +:+ Upload.sanitize name
  /\ String.length (Upload.sanitize name) = String.length name
  /\ (forall i, String.get i (Upload.sanitize name)
                = (fun c => if Upload.safe_char c then c else "_"%char) <$> String.get i name)
  /\ Forall (fun c => Upload.safe_char c = true \/ c = "_"%char)
            (list_ascii_of_string (Upload.sanitize name)).
Proof.
  split; [reflexivity|].
  split; [apply sanitize_length|].
  split; [intros i; apply sanitize_get|].
  apply sanitize_chars.
Qed.

(** ** C9: truncation of the parsed content *)






Example mark_length : Js.length Backend.truncation_mark = 23%N.
Proof. reflexivity. Qed.


Example truncated_content_of_long_text :
  let e := Mock.services Mock.never (Mock.says "ok") in
  (fun t => match t with inr t => Js.length t | inl _ => 0%N end)
    (Backend.truncatedContent e (JStr (Mock.filler 10001))) = 10023%N.
Proof. vm_compute. reflexivity. Qed.


(** ** C10: the prompt field in the image-only variant *)


Example part001_ignores_prompt_run :
  let e := Mock.services Mock.never (Mock.says "INVOICE 42") in
  let file := Mock.stored "photo.png" "image/png" in
  let s := Mock.start [(path file, "PNG")] in
  completion_requests
    (trace (snd (Part001.handler e (mk_req (Some file) (Some "ignore the image")) s)))
  = [Part001.requestBody (Sibling.image_messages e Part001.prompt "image/png" "PNG")].
Proof. vm_compute. reflexivity. Qed.


(** ** Further rules and tactics for handler code *)

(** A computation whose run from [s] is known. *)
Lemma wp_known {A} (m : M A) (Q : outcome A -> state -> Prop) (s s' : state)
    (o : outcome A) :
  m s = (o, s') -> Q o s' -> wp m Q s.
Proof. intros Hrun HQ. unfold wp. rewrite Hrun. exact HQ. Qed.

#[global] Hint Unfold Backend.route Part000.route Part001.route Part002.route
  Upload.single : handler_code.

Lemma upstream_events_app (t1 t2 : list event) :
  upstream_events (t1 ++ t2) = upstream_events t1 ++ upstream_events t2.
Proof. apply List.filter_app. Qed.

Lemma upstream_events_poll_trace (jobId : string) (n : nat) :
  upstream_events (poll_trace jobId n) = polls_of jobId n.
Proof.
  induction n as [|n IH]; [reflexivity|].
  cbn [poll_trace]. unfold upstream_events in *. cbn [List.filter is_upstream].
  rewrite IH. reflexivity.
Qed.

Lemma count_polls_app (t1 t2 : list event) :
  count_polls (t1 ++ t2) = count_polls t1 + count_polls t2.
Proof. unfold count_polls. rewrite List.filter_app. apply List.length_app. Qed.

Lemma prop_inr (j : json) (k : string) (v : jsval) :
  prop j k = inr v -> v = Js.opt_prop (Some j) k /\ j <> JNull.
Proof.
  destruct j; cbn; intros H; try discriminate; injection H as <-;
    (split; [reflexivity | discriminate]).
Qed.

Lemma prop_inl (j : json) (k : string) (err : js_error) :
  prop j k = inl err -> j = JNull /\ err_multer err = false.
Proof.
  destruct j; cbn; intros H; try discriminate; injection H as <-;
    (split; reflexivity).
Qed.

(** Symbolic execution with the postcondition kept folded until the run
    is over. *)
Ltac fold_post Post :=
  match goal with
  | |- wp _ ?Q _ => set (Post := Q)
  end.

Ltac wp_exec :=
  let Post := fresh "Post" in
  fold_post Post; wp_run; subst Post; cbv beta.

(** Symbolic execution that knows what was just written to a file. *)
Ltac wp_step_fs :=
  state_simpl; cbn [path originalname mimetype size Part002.path_resolve];
  lazymatch goal with
  | |- wp (match ?x with _ => _ end) _ _ => rewrite ?lookup_insert_eq
  | |- wp (bind (if _ then _ else _) _) _ _ => rewrite ?lookup_insert_eq
  | |- wp (if _ then _ else _) _ _ => rewrite ?lookup_insert_eq
  | _ => idtac
  end;
  wp_step.

Ltac wp_run_fs := repeat wp_step_fs.

Ltac wp_exec_fs :=
  let Post := fresh "Post" in
  fold_post Post; wp_run_fs; subst Post; cbv beta.

(** Symbolic execution up to the call of the polling helper. *)
Ltac wp_to_poll :=
  repeat lazymatch goal with
         | |- wp (Backend.pollForResult _ _) _ _ => fail
         | _ => wp_step
         end.


(** A lookup that contradicts what is known of the file system. *)
Ltac fs_absurd :=
  match goal with
  | H : <[?p:=_]> _ !! ?p = None |- _ => rewrite lookup_insert_eq in H; discriminate H
  | H : _ = None |- _ =>
      rewrite lookup_insert_eq in H; discriminate H
  | H : _ = None |- _ =>
      apply lookup_insert_None in H; destruct H as [H _]; congruence
  end.

(** The polling helper on a job that is done at poll [k + 1]. *)
Lemma pollForResult_done (e : env) (jobId : jsval) (s : state) (k : nat)
    (resp : fetch_response) (fields : list (string * json)) :
  k < 60 ->
  (forall i, i < k ->
     not_yet_complete (parser_poll e (template e jobId) (polls s + i)) = true) ->
  parser_poll e (template e jobId) (polls s + k) = FetchOk resp ->
  resp_ok resp = true ->
  resp_json resp = Some (JObj fields) ->
  Backend.pollForResult e jobId s
  = (Ret (Js.assoc "markdown" fields), after_polls (template e jobId) (S k) s).
Proof.
  intros Hk Hpend Hans Hok Hjson.
  rewrite (pollForResult_at e jobId s k Hk Hpend), Hans, Hok.
  unfold bind, response_json. rewrite Hjson. reflexivity.
Qed.

Ltac read_polls :=
  read_events;
  rewrite ?count_polls_app, ?count_polls_poll_trace;
  cbn [count_polls List.filter List.length app Nat.add].

(** ** The stored name: further properties of [sanitize] and [filename] *)

Lemma sanitize_cons (c : ascii) (s : string) :
  Upload.sanitize (String c s)
  = String (if Upload.safe_char c then c else "_"%char) (Upload.sanitize s).
Proof. reflexivity. Qed.

Lemma underscore_not_safe : Upload.safe_char "_"%char = false.
Proof. reflexivity. Qed.

Lemma uint_digits (d : Decimal.uint) :
  Forall (fun c => is_digit c = true) (list_ascii_of_string (NilEmpty.string_of_uint d)).
Proof.
  induction d; cbn [NilEmpty.string_of_uint list_ascii_of_string];
    constructor; try reflexivity; assumption.
Qed.

Lemma string_of_N_digits (n : N) :
  Forall (fun c => is_digit c = true) (list_ascii_of_string (Js.string_of_N n)).
Proof. apply uint_digits. Qed.

Lemma string_of_N_inj (n m : N) : Js.string_of_N n = Js.string_of_N m -> n = m.
Proof.
  unfold Js.string_of_N. intros H.
  apply DecimalN.Unsigned.to_uint_inj.
  assert (Hs : Some (N.to_uint n) = Some (N.to_uint m)).
  { rewrite <- !NilEmpty.usu. rewrite H. reflexivity. }
  congruence.
Qed.

(** Two texts that agree after a prefix of digits and a dash have the same
    prefix. *)
Lemma digits_dash_inj (a b x y : string) :
  Forall (fun c => is_digit c = true) (list_ascii_of_string a) ->
  Forall (fun c => is_digit c = true) (list_ascii_of_string b) ->
  a +:+ "-" +:+ x = b +:+ "-" +:+ y ->
  a = b /\ x = y.
Proof.
  revert b. induction a as [|c a IH]; intros b Ha Hb Heq.
  - destruct b as [|c' b].
    + cbn in Heq. injection Heq as Heq. split; [reflexivity | exact Heq].
    + cbn in Heq. injection Heq as Hc _. subst c'.
      cbn in Hb. apply Forall_cons_1 in Hb. destruct Hb as [Hb _]. discriminate Hb.
  - destruct b as [|c' b].
    + cbn in Heq. injection Heq as Hc _. subst c.
      cbn in Ha. apply Forall_cons_1 in Ha. destruct Ha as [Ha _]. discriminate Ha.
    + cbn in Heq. injection Heq as Hc Heq. subst c'.
      cbn in Ha, Hb. apply Forall_cons_1 in Ha. apply Forall_cons_1 in Hb.
      destruct (IH b (proj2 Ha) (proj2 Hb) Heq) as [-> ->]. split; reflexivity.
Qed.

Lemma chars_append (a b : string) :
  list_ascii_of_string (a +:+ b) = list_ascii_of_string a ++ list_ascii_of_string b.
Proof. induction a as [|c a IH]; [reflexivity|]. simpl. f_equal. exact IH. Qed.

Example sanitized_names_collide :
  Upload.filename 1700000000000 "my file.png" = Upload.filename 1700000000000 "my_file.png".
Proof. vm_compute. reflexivity. Qed.

(** X1.  Sanitizing a name twice is sanitizing it once, and the names that
    sanitization leaves as they are are those made of class characters and
    underscores. *)
Theorem sanitize_idempotent (name : string) :
  Upload.sanitize (Upload.sanitize name) = Upload.sanitize name
  /\
  (Upload.sanitize name = name <->
   Forall (fun c => Upload.safe_char c = true \/ c = "_"%char) (list_ascii_of_string name)).
Proof.
  split.
  - induction name as [|c name IH]; [reflexivity|].
    rewrite sanitize_cons. rewrite sanitize_cons. rewrite IH.
    destruct (Upload.safe_char c) eqn:Hc.
    + rewrite Hc. reflexivity.
    + rewrite underscore_not_safe. reflexivity.
  - split.
    + intros H. rewrite <- H. apply sanitize_chars.
    + induction name as [|c name IH]; intros H; [reflexivity|].
      cbn in H. apply Forall_cons_1 in H. destruct H as [Hc Hrest].
      rewrite sanitize_cons. rewrite (IH Hrest).
      destruct Hc as [Hc | ->]; [rewrite Hc | rewrite underscore_not_safe]; reflexivity.
Qed.

(** X2.  Whatever the original name, the stored name holds no path
    separator: the upload is written directly inside the uploads
    directory. *)
Theorem stored_name_has_no_separator (now : N) (name : string) :
  no_separator (Upload.filename now name).
Proof.
  unfold no_separator, Upload.filename.
  rewrite !chars_append. apply Forall_app. split; [|apply Forall_app; split].
  - eapply Forall_impl; [apply string_of_N_digits|].
    intros c Hc. split; intros ->; discriminate Hc.
  - repeat constructor; discriminate.
  - eapply Forall_impl; [apply sanitize_chars|].
    intros c [Hc | ->]; split; try discriminate; intros ->; discriminate Hc.
Qed.

(** X3.  Two uploads get the same stored name exactly when they arrive in
    the same millisecond with names that sanitize alike. *)
Theorem filename_collision (now1 now2 : N) (name1 name2 : string) :
  Upload.filename now1 name1 = Upload.filename now2 name2 <->
  now1 = now2 /\ Upload.sanitize name1 = Upload.sanitize name2.
Proof.
  unfold Upload.filename. split.
  - intros H.
    destruct (digits_dash_inj _ _ _ _ (string_of_N_digits now1) (string_of_N_digits now2) H)
      as [Hn Hs].
    split; [apply string_of_N_inj; exact Hn | exact Hs].
  - intros [-> ->]. reflexivity.
Qed.

(** ** The hosted-parser variant: configuration and parser failures *)

Ltac read_upstream :=
  read_events;
  rewrite ?upstream_events_app, ?upstream_events_poll_trace;
  cbn [upstream_events List.filter is_upstream app].

(** X4.  With a file and a prompt, the hosted-parser variant checks both
    API keys before it calls anything: when one is unset or empty it answers
    with a failure that names the key, the parser's first, and no hosted
    service is called. *)
Theorem missing_api_key_rejected (e : env) (req : request) (s : state)
    (file : upload_file) (prompt : string) :
  req_file req = Some file ->
  body_prompt req = Some prompt ->
  Js.trim prompt <> EmptyString ->
  unset (LLAMA_CLOUD_API_KEY e) = true \/ unset (GROQ_API_KEY e) = true ->
  let s' := snd (Backend.handler e req s) in
  replies_since s s'
  = [mk_reply 500
       [("success", FBool false);
        ("error", FStr (if unset (LLAMA_CLOUD_API_KEY e)
                        then "LLAMA_CLOUD_API_KEY is not set in environment variables"
                        else "GROQ_API_KEY is not set in environment variables"))]]
  /\ upstream_calls (events_since s s') = 0.
Proof.
  intros Hfile Hprompt Htrim Hkeys. cbv zeta.
  destruct req as [rf rp]. cbn in Hfile, Hprompt. subst rf rp.
  apply truthy_string_nonempty in Htrim.
  as_wp Backend.handler.
  destruct (unset (LLAMA_CLOUD_API_KEY e)) eqn:Hllama.
  - wp_exec. all: split; [read_replies; reflexivity | read_events; reflexivity].
  - destruct Hkeys as [Hk|Hgroq]; [discriminate Hk|].
    wp_exec. all: split; [read_replies; reflexivity | read_events; reflexivity].
Qed.

(** X4 at work: the parser's key is set and the completion key is empty. *)
Lemma missing_api_key_rejected_witness :
  let e := Scenario.with_keys (Some "llx-test") (Some EmptyString)
             (Mock.services Mock.never (Mock.says "unused")) in
  let file := Mock.stored "scan.pdf" "application/pdf" in
  let s := Mock.start [(path file, "%PDF-1.4")] in
  replies_since s (snd (Backend.handler e (mk_req (Some file) (Some " extract text ")) s))
  = [mk_reply 500
       [("success", FBool false);
        ("error", FStr "GROQ_API_KEY is not set in environment variables")]].
Proof.
  intros e file s.
  assert (Htrim : Js.trim " extract text " <> EmptyString) by (vm_compute; discriminate).
  exact (proj1 (missing_api_key_rejected e (mk_req (Some file) (Some " extract text ")) s
                  file " extract text " eq_refl eq_refl Htrim (or_intror eq_refl))).
Defined.

(** X5.  When the parser refuses the upload with a status outside 2xx, the
    hosted-parser variant answers with a failure that holds that status and
    the body of the refusal; it neither polls nor calls the completion
    service: the upload is the only call made. *)
Theorem parser_rejection_surfaced (e : env) (req : request) (s : state)
    (file : upload_file) (prompt bytes : string) (resp : fetch_response) :
  req_file req = Some file ->
  body_prompt req = Some prompt ->
  Js.trim prompt <> EmptyString ->
  unset (LLAMA_CLOUD_API_KEY e) = false ->
  unset (GROQ_API_KEY e) = false ->
  fs s !! path file = Some bytes ->
  parser_upload e (originalname file) bytes = FetchOk resp ->
  resp_ok resp = false ->
  let s' := snd (Backend.handler e req s) in
  replies_since s s'
  = [mk_reply 500
       [("success", FBool false);
        ("error", FStr ("Upload failed (" +:+ Js.string_of_N (resp_status resp)
                        +:+ "): " +:+ resp_text resp))]]
  /\ upstream_events (events_since s s') = [EvParserUpload (originalname file)].
Proof.
  intros Hfile Hprompt Htrim Hllama Hgroq Hbytes Hanswer Hrefused. cbv zeta.
  destruct req as [rf rp]. cbn in Hfile, Hprompt. subst rf rp.
  apply truthy_string_nonempty in Htrim.
  as_wp Backend.handler. wp_exec.
  all: split; [read_replies; reflexivity | read_upstream; reflexivity].
Qed.

(** X5 at work: the parser answers the upload with HTTP 503. *)
Lemma parser_rejection_surfaced_witness :
  let e := Scenario.with_upload_answer (FetchOk Scenario.unavailable)
             (Mock.services Mock.never (Mock.says "unused")) in
  let file := Mock.stored "scan.pdf" "application/pdf" in
  let s := Mock.start [(path file, "%PDF-1.4")] in
  replies_since s (snd (Backend.handler e (mk_req (Some file) (Some "extract text")) s))
  = [mk_reply 500
       [("success", FBool false);
        ("error", FStr "Upload failed (503): Service Unavailable")]].
Proof.
  intros e file s.
  assert (Htrim : Js.trim "extract text" <> EmptyString) by (vm_compute; discriminate).
  assert (Hbytes : fs s !! path file = Some "%PDF-1.4") by (vm_compute; reflexivity).
  exact (proj1 (parser_rejection_surfaced e (mk_req (Some file) (Some "extract text")) s
                  file "extract text" "%PDF-1.4" Scenario.unavailable
                  eq_refl eq_refl Htrim eq_refl eq_refl Hbytes eq_refl eq_refl)).
Defined.

Section ParserJob.

Variable e : env.
Variable req : request.
Variable s : state.
Variable file : upload_file.
Variables prompt bytes : string.
Variable accepted : fetch_response.
Variable answer : list (string * json).

Hypothesis Hfile : req_file req = Some file.
Hypothesis Hprompt : body_prompt req = Some prompt.
Hypothesis Htrim : Js.trim prompt <> EmptyString.
Hypothesis Hllama : unset (LLAMA_CLOUD_API_KEY e) = false.
Hypothesis Hgroq : unset (GROQ_API_KEY e) = false.
Hypothesis Hbytes : fs s !! path file = Some bytes.
Hypothesis Haccepted : parser_upload e (originalname file) bytes = FetchOk accepted.
Hypothesis Hok : resp_ok accepted = true.
Hypothesis Hanswer : resp_json accepted = Some (JObj answer).

Let job : string := template e (Js.assoc "id" answer).

(** X6.  A job that is still running at each of 60 polls ends the request
    with the timeout failure: 60 status requests were sent, 300000 ms were
    spent waiting, and the completion service was not called. *)
Theorem parser_timeout_reply :
  (forall i, i < 60 -> not_yet_complete (parser_poll e job (polls s + i)) = true) ->
  let s' := snd (Backend.handler e req s) in
  replies_since s s'
  = [mk_reply 500 [("success", FBool false);
                   ("error", FStr "Parsing timeout - job took too long to complete")]]
  /\ count_polls (events_since s s') = 60
  /\ completion_requests (events_since s s') = []
  /\ clock s' = (clock s + 300000)%N.
Proof.
  intros Hpolls. cbv zeta. as_wp Backend.handler.
  destruct req as [rf rp]. cbn in Hfile, Hprompt. subst rf rp.
  apply truthy_string_nonempty in Htrim.
  pose proof (eq_refl : prop (JObj answer) "id" = inr (Js.assoc "id" answer)) as Hid.
  fold_post Post. wp_to_poll.
  eapply wp_known.
  { apply pollForResult_timeout. intros i Hi. state_simpl. apply Hpolls. exact Hi. }
  cbv beta iota. wp_run. all: subst Post; cbv beta.
  all: split; [read_replies; reflexivity|].
  all: split; [read_polls; reflexivity|].
  all: split; [read_requests; reflexivity|].
  all: state_simpl; unfold Backend.interval; lia.
Qed.

(** X7.  A job that finishes, after any number of polls, with an empty or
    missing [markdown] ends the request with the failure
    ["No content returned by LlamaParse."]; the completion service is not
    called. *)
Theorem empty_parse_result_rejected (k : nat) (done : fetch_response)
    (result : list (string * json)) :
  k < 60 ->
  (forall i, i < k -> not_yet_complete (parser_poll e job (polls s + i)) = true) ->
  parser_poll e job (polls s + k) = FetchOk done ->
  resp_ok done = true ->
  resp_json done = Some (JObj result) ->
  Js.truthy (Js.assoc "markdown" result) = false ->
  let s' := snd (Backend.handler e req s) in
  replies_since s s'
  = [mk_reply 500 [("success", FBool false);
                   ("error", FStr "No content returned by LlamaParse.")]]
  /\ count_polls (events_since s s') = S k
  /\ completion_requests (events_since s s') = [].
Proof.
  intros Hk Hpolls Hdone Hdone_ok Hresult Hempty. cbv zeta. as_wp Backend.handler.
  destruct req as [rf rp]. cbn in Hfile, Hprompt. subst rf rp.
  apply truthy_string_nonempty in Htrim.
  pose proof (eq_refl : prop (JObj answer) "id" = inr (Js.assoc "id" answer)) as Hid.
  fold_post Post. wp_to_poll.
  eapply wp_known.
  { apply (pollForResult_done e _ _ k done result Hk); assumption. }
  cbv beta iota. wp_run. all: subst Post; cbv beta.
  all: split; [read_replies; reflexivity|].
  all: split; [read_polls; lia|].
  all: read_requests; reflexivity.
Qed.

(** X8.  End to end: the upload is accepted, the job is done after [k]
    pending polls with the markdown [md], and the completion service
    answers the request built from the trimmed prompt and the truncated
    markdown with a usable first choice.  Then the reply is the success
    with that choice as output ([message.content], or [text] when the
    content is missing or empty), and the hosted services were called in
    this order: one upload, [k + 1] polls, one completion. *)
Theorem parsed_document_answered (k : nat) (done reply : fetch_response)
    (result : list (string * json)) (md : string) (data out : json) :
  k < 60 ->
  (forall i, i < k -> not_yet_complete (parser_poll e job (polls s + i)) = true) ->
  parser_poll e job (polls s + k) = FetchOk done ->
  resp_ok done = true ->
  resp_json done = Some (JObj result) ->
  Js.assoc "markdown" result = Some (JStr md) ->
  md <> EmptyString ->
  let truncated :=
    if (Backend.maxContentLength <? Js.length md)%N
    then Js.substring0 Backend.maxContentLength md +:+ Backend.truncation_mark
    else md in
  let body := Backend.requestBody (Backend.messages_of (Js.trim prompt) truncated) in
  completion e body = FetchOk reply ->
  resp_ok reply = true ->
  resp_json reply = Some data ->
  Js.or_else (first_choice_content data) (first_choice_text data) = Some out ->
  Js.truthy (Some out) = true ->
  let s' := snd (Backend.handler e req s) in
  replies_since s s' = [mk_reply 200 [("success", FBool true); ("output", FJson out)]]
  /\ upstream_events (events_since s s')
     = EvParserUpload (originalname file) :: polls_of job (S k) ++ [EvCompletion body].
Proof.
  intros Hk Hpolls Hdone Hdone_ok Hresult Hmd Hnonempty truncated body
         Hreply Hreply_ok Hdata Hout Htruthy.
  cbv zeta. as_wp Backend.handler.
  destruct req as [rf rp]. cbn in Hfile, Hprompt. subst rf rp.
  apply truthy_string_nonempty in Htrim.
  pose proof (eq_refl : prop (JObj answer) "id" = inr (Js.assoc "id" answer)) as Hid.
  assert (Hcut : Backend.truncatedContent e (JStr md) = inr truncated).
  { unfold Backend.truncatedContent. subst truncated.
    destruct (Backend.maxContentLength <? Js.length md)%N; reflexivity. }
  assert (Hfinal : Js.or_else
                     (Js.or_else
                        (Js.opt_prop
                           (Js.opt_prop (Js.opt_index0 (Js.opt_prop (Some data) "choices"))
                                        "message") "content")
                        (Js.opt_prop (Js.opt_index0 (Js.opt_prop (Some data) "choices")) "text"))
                     (Some (JStr EmptyString)) = Some out).
  { unfold first_choice_content, first_choice_text in Hout. rewrite Hout.
    unfold Js.or_else. rewrite Htruthy. reflexivity. }
  fold_post Post. wp_to_poll.
  eapply wp_known.
  { apply (pollForResult_done e _ _ k done result Hk); assumption. }
  cbv beta iota. rewrite Hmd.
  assert (Hmd_truthy : Js.truthy (Some (JStr md)) = true).
  { destruct md; [congruence | reflexivity]. }
  subst body.
  repeat (rewrite ?Hfinal; wp_step).
  all: subst Post; cbv beta.
  all: rewrite ?Hfinal in *; try congruence.
  all: split; [read_replies; reflexivity|].
  all: read_events; rewrite ?Nat.add_0_r;
       rewrite ?upstream_events_app, ?upstream_events_poll_trace;
       cbn [upstream_events List.filter is_upstream app]; reflexivity.
Qed.

End ParserJob.

(** X6 at work: a parser that never finishes. *)
Lemma parser_timeout_reply_witness :
  let e := Mock.services Mock.never (Mock.says "unused") in
  let file := Mock.stored "scan.pdf" "application/pdf" in
  let s := Mock.start [(path file, "%PDF-1.4")] in
  let s' := snd (Backend.handler e (mk_req (Some file) (Some "extract text")) s) in
  count_polls (events_since s s') = 60 /\ clock s' = (clock s + 300000)%N.
Proof.
  intros e file s s'.
  assert (Htrim : Js.trim "extract text" <> EmptyString) by (vm_compute; discriminate).
  assert (Hbytes : fs s !! path file = Some "%PDF-1.4") by (vm_compute; reflexivity).
  destruct (parser_timeout_reply e (mk_req (Some file) (Some "extract text")) s file
              "extract text" "%PDF-1.4" Mock.accepted [("id", JStr "job-1")]
              eq_refl eq_refl Htrim eq_refl eq_refl Hbytes eq_refl eq_refl eq_refl
              (fun i _ => eq_refl)) as (_ & Hpolls & _ & Hclock).
  split; [exact Hpolls | exact Hclock].
Defined.

(** X7 at work: the job is done at the second poll, with an empty
    document. *)
Lemma empty_parse_result_rejected_witness :
  let e := Mock.services (Mock.done_at 1 EmptyString) (Mock.says "unused") in
  let file := Mock.stored "scan.pdf" "application/pdf" in
  let s := Mock.start [(path file, "%PDF-1.4")] in
  let s' := snd (Backend.handler e (mk_req (Some file) (Some "extract text")) s) in
  replies_since s s'
  = [mk_reply 500 [("success", FBool false);
                   ("error", FStr "No content returned by LlamaParse.")]]
  /\ completion_requests (events_since s s') = [].
Proof.
  intros e file s s'.
  assert (Htrim : Js.trim "extract text" <> EmptyString) by (vm_compute; discriminate).
  assert (Hbytes : fs s !! path file = Some "%PDF-1.4") by (vm_compute; reflexivity).
  assert (Hpending : forall i, i < 1 ->
            not_yet_complete (parser_poll e (template e (Js.assoc "id" [("id", JStr "job-1")]))
                                          (polls s + i)) = true).
  { intros i Hi. destruct i as [|i]; [reflexivity | lia]. }
  destruct (empty_parse_result_rejected e (mk_req (Some file) (Some "extract text")) s file
              "extract text" "%PDF-1.4" Mock.accepted [("id", JStr "job-1")]
              eq_refl eq_refl Htrim eq_refl eq_refl Hbytes eq_refl eq_refl eq_refl
              1 (Mock.finished EmptyString) [("markdown", JStr EmptyString)]
              ltac:(lia) Hpending eq_refl eq_refl eq_refl eq_refl)
    as (Hreply & _ & Hrequests).
  split; [exact Hreply | exact Hrequests].
Defined.

(** X8 at work: an invoice parsed at the second poll and answered by the
    completion service. *)
Lemma parsed_document_answered_witness :
  let e := Mock.services (Mock.done_at 1 "# Invoice") (Mock.says "Total: 42") in
  let file := Mock.stored "scan.pdf" "application/pdf" in
  let s := Mock.start [(path file, "%PDF-1.4")] in
  let s' := snd (Backend.handler e (mk_req (Some file) (Some " extract text ")) s) in
  replies_since s s'
  = [mk_reply 200 [("success", FBool true); ("output", FJson (JStr "Total: 42"))]]
  /\ upstream_events (events_since s s')
     = [ EvParserUpload "scan.pdf"; EvParserPoll "job-1"; EvParserPoll "job-1";
         EvCompletion (Backend.requestBody (Backend.messages_of "extract text" "# Invoice")) ].
Proof.
  intros e file s s'.
  assert (Htrim : Js.trim " extract text " <> EmptyString) by (vm_compute; discriminate).
  assert (Hbytes : fs s !! path file = Some "%PDF-1.4") by (vm_compute; reflexivity).
  assert (Hpending : forall i, i < 1 ->
            not_yet_complete (parser_poll e (template e (Js.assoc "id" [("id", JStr "job-1")]))
                                          (polls s + i)) = true).
  { intros i Hi. destruct i as [|i]; [reflexivity | lia]. }
  assert (Hmd : "# Invoice" <> EmptyString) by discriminate.
  exact (parsed_document_answered e (mk_req (Some file) (Some " extract text ")) s file
           " extract text " "%PDF-1.4" Mock.accepted [("id", JStr "job-1")]
           eq_refl eq_refl Htrim eq_refl eq_refl Hbytes eq_refl eq_refl eq_refl
           1 (Mock.finished "# Invoice") (Mock.completed "Total: 42")
           [("markdown", JStr "# Invoice")] "# Invoice" _ (JStr "Total: 42")
           ltac:(lia) Hpending eq_refl eq_refl eq_refl eq_refl Hmd
           eq_refl eq_refl eq_refl eq_refl eq_refl).
Defined.

(** ** The prompt: trimming and defaults *)

Lemma trimStart_blank (p : string) : blank p -> Js.trimStart p = EmptyString.
Proof.
  unfold blank. induction p as [|c p IH]; intros H; [reflexivity|].
  cbn in H. apply Forall_cons_1 in H. destruct H as [Hc Hp].
  cbn [Js.trimStart]. rewrite Hc. apply IH. exact Hp.
Qed.

Lemma trim_blank (p : string) : blank p -> Js.trim p = EmptyString.
Proof. intros H. unfold Js.trim. rewrite (trimStart_blank p H). reflexivity. Qed.

Example part000_keeps_blank_prompt :
  let e := Mock.services Mock.never (Mock.says "INVOICE 42") in
  let file := Mock.stored "photo.png" "image/png" in
  let s := Mock.start [(path file, "PNG")] in
  replies (snd (Part000.handler e (mk_req (Some file) (Some "  ")) s))
  = [mk_reply 200 [("success", FBool true); ("output", FJson (JStr "INVOICE 42"))]].
Proof. vm_compute. reflexivity. Qed.

(** X9.  The hosted-parser variant trims the prompt: a prompt of white
    space only is refused like a missing one, before any call to a hosted
    service, and the instruction of every completion request holds the
    prompt without its leading and trailing white space. *)
Theorem prompt_is_trimmed (e : env) (file : option upload_file) (prompt : string)
    (s : state) :
  let s' := snd (Backend.handler e (mk_req file (Some prompt)) s) in
  (blank prompt ->
   replies_since s s'
   = [mk_reply 500
        [("success", FBool false);
         ("error", FStr (match file with
                         | Some _ => "No prompt provided."
                         | None => "No file uploaded."
                         end))]]
   /\ upstream_calls (events_since s s') = 0)
  /\
  Forall (fun body => exists truncated,
              messages body = Backend.messages_of (Js.trim prompt) truncated)
         (completion_requests (events_since s s')).
Proof.
  cbv zeta. split.
  - intros Hblank. apply trim_blank in Hblank.
    as_wp Backend.handler. destruct file; wp_exec.
    all: try (rewrite Hblank in *; discriminate).
    all: split; [read_replies; reflexivity | read_events; reflexivity].
  - as_wp Backend.handler. wp_exec.
    all: read_requests.
    all: repeat first
           [ apply List.Forall_nil
           | apply List.Forall_cons; [ eexists; reflexivity |] ].
Qed.

(** X9 at work: a prompt of two spaces and a tab. *)
Lemma prompt_is_trimmed_witness :
  let e := Mock.services Mock.never (Mock.says "unused") in
  let file := Mock.stored "scan.pdf" "application/pdf" in
  let s := Mock.start [(path file, "%PDF-1.4")] in
  let blanks := String " " (String " " (String (ascii_of_nat 9) EmptyString)) in
  upstream_calls
    (events_since s (snd (Backend.handler e (mk_req (Some file) (Some blanks)) s))) = 0.
Proof.
  intros e file s blanks.
  assert (Hblank : blank blanks) by (repeat constructor).
  exact (proj2 (proj1 (prompt_is_trimmed e (Some file) blanks s) Hblank)).
Defined.

(** X10.  part_002 does not require a prompt: when the field is missing or
    empty, the question it sends is the text ["No prompt provided"]. *)
Theorem part002_prompt_default (e : env) (req : request) (s : state) :
  body_prompt req = None \/ body_prompt req = Some EmptyString ->
  Forall (fun body => exists text,
              body = Part002.requestBody
                       ("Here is the resume text:" +:+ Js.nl +:+ text +:+ Js.nl +:+ Js.nl
                        +:+ "User's question:" +:+ Js.nl +:+ "No prompt provided"))
         (completion_requests (events_since s (snd (Part002.handler e req s)))).
Proof.
  intros Hprompt. as_wp Part002.handler.
  destruct req as [rf rp]. cbn in Hprompt.
  destruct Hprompt as [-> | ->]; wp_exec.
  all: read_requests.
  all: repeat first
         [ apply List.Forall_nil
         | apply List.Forall_cons; [ eexists; reflexivity |] ].
Qed.

Example part002_question_without_prompt :
  let e := Mock.services Mock.never (Mock.says "A senior engineer.") in
  let file := Mock.stored "resume.pdf" "application/pdf" in
  let s := Mock.start [(path file, "Jane Doe")] in
  completion_requests (trace (snd (Part002.handler e (mk_req (Some file) None) s)))
  = [Part002.requestBody
       ("Here is the resume text:" +:+ Js.nl +:+ "Jane Doe" +:+ Js.nl +:+ Js.nl
        +:+ "User's question:" +:+ Js.nl +:+ "No prompt provided")].
Proof. vm_compute. reflexivity. Qed.

(** X10 at work: a resume sent without a prompt. *)
Lemma part002_prompt_default_witness :
  let e := Mock.services Mock.never (Mock.says "A senior engineer.") in
  let file := Mock.stored "resume.pdf" "application/pdf" in
  let s := Mock.start [(path file, "Jane Doe")] in
  let req := mk_req (Some file) None in
  body_prompt req = None /\
  Forall (fun body => exists text,
              body = Part002.requestBody
                       ("Here is the resume text:" +:+ Js.nl +:+ text +:+ Js.nl +:+ Js.nl
                        +:+ "User's question:" +:+ Js.nl +:+ "No prompt provided"))
         (completion_requests (events_since s (snd (Part002.handler e req s)))).
Proof.
  intros e file s req. split; [reflexivity|].
  exact (part002_prompt_default e req s (or_introl eq_refl)).
Defined.

(** ** The calls to the hosted services *)

Ltac read_upstream_events :=
  read_events;
  rewrite ?upstream_events_app, ?upstream_events_poll_trace;
  cbn [upstream_events List.filter is_upstream app];
  rewrite ?app_nil_r.

Lemma calls_none : parser_then_completion [].
Proof. left. reflexivity. Qed.

Lemma calls_upload (name : string) : parser_then_completion [EvParserUpload name].
Proof.
  right. exists name, EmptyString, 0, []. split; [lia|]. split; [reflexivity|].
  left. reflexivity.
Qed.

Lemma calls_polls (name jobId : string) (n : nat) :
  n <= 60 -> parser_then_completion (EvParserUpload name :: polls_of jobId n).
Proof.
  intros Hn. right. exists name, jobId, n, []. split; [exact Hn|].
  split; [rewrite app_nil_r; reflexivity|]. left. reflexivity.
Qed.

Lemma calls_completion (name jobId : string) (n : nat) (body : completion_request) :
  n <= 60 ->
  parser_then_completion (EvParserUpload name :: polls_of jobId n ++ [EvCompletion body]).
Proof.
  intros Hn. right. exists name, jobId, n, [EvCompletion body]. split; [exact Hn|].
  split; [reflexivity|]. right. exists body. reflexivity.
Qed.

Ltac calls_leaf :=
  read_upstream_events;
  first [ apply calls_none
        | apply calls_upload
        | apply calls_polls; assumption
        | apply calls_completion; assumption
        | left; reflexivity
        | right; eexists; reflexivity ].

(** The time spent waiting: 5000 ms for each status poll. *)
Ltac waited :=
  first [ split; [ state_simpl; read_polls; unfold Backend.interval; lia
                 | read_polls; lia ]
        | state_simpl; reflexivity ].

Lemma backend_calls (e : env) (req : request) (s : state) :
  wp (Backend.handler e req)
     (fun _ s' =>
        parser_then_completion (upstream_events (events_since s s'))
        /\ (clock s' = (clock s + 5000 * N.of_nat (count_polls (events_since s s')))%N
            /\ count_polls (events_since s s') <= 60)) s.
Proof. wp_exec. all: split; [calls_leaf | waited]. Qed.

Lemma part000_calls (e : env) (req : request) (s : state) :
  wp (Part000.handler e req)
     (fun _ s' =>
        one_completion_at_most (upstream_events (events_since s s'))
        /\ clock s' = clock s) s.
Proof. wp_exec. all: split; [calls_leaf | waited]. Qed.

Lemma part001_calls (e : env) (req : request) (s : state) :
  wp (Part001.handler e req)
     (fun _ s' =>
        one_completion_at_most (upstream_events (events_since s s'))
        /\ clock s' = clock s) s.
Proof. wp_exec. all: split; [calls_leaf | waited]. Qed.

Lemma part002_calls (e : env) (req : request) (s : state) :
  wp (Part002.handler e req)
     (fun _ s' =>
        one_completion_at_most (upstream_events (events_since s s'))
        /\ clock s' = clock s) s.
Proof. wp_exec. all: split; [calls_leaf | waited]. Qed.

(** X11.  No call to a hosted service is repeated after a failure.  A
    request to the hosted-parser variant makes no call at all, or one upload
    to the parser followed by at most 60 status polls and then at most one
    completion request; a request to part_000, part_001 or part_002 makes
    at most one completion request and no other call. *)
Theorem upstream_calls_in_order (e : env) (req : request) (s : state) :
  parser_then_completion (upstream_events (events_since s (snd (Backend.handler e req s))))
  /\ one_completion_at_most (upstream_events (events_since s (snd (Part000.handler e req s))))
  /\ one_completion_at_most (upstream_events (events_since s (snd (Part001.handler e req s))))
  /\ one_completion_at_most (upstream_events (events_since s (snd (Part002.handler e req s)))).
Proof.
  split; [exact (proj1 (backend_calls e req s))|].
  split; [exact (proj1 (part000_calls e req s))|].
  split; [exact (proj1 (part001_calls e req s))|].
  exact (proj1 (part002_calls e req s)).
Qed.

(** X12.  The only waiting a request does is the polling of the parser: the
    hosted-parser variant spends 5000 ms before each status poll it sends
    and nothing more, that is at most 300000 ms for its 60 polls at most;
    part_000, part_001 and part_002 never wait. *)
Theorem request_waiting_time (e : env) (req : request) (s : state) :
  (clock (snd (Backend.handler e req s))
   = (clock s
      + 5000 * N.of_nat (count_polls (events_since s (snd (Backend.handler e req s)))))%N
   /\ count_polls (events_since s (snd (Backend.handler e req s))) <= 60)
  /\ clock (snd (Part000.handler e req s)) = clock s
  /\ clock (snd (Part001.handler e req s)) = clock s
  /\ clock (snd (Part002.handler e req s)) = clock s.
Proof.
  split; [exact (proj2 (backend_calls e req s))|].
  split; [exact (proj2 (part000_calls e req s))|].
  split; [exact (proj2 (part001_calls e req s))|].
  exact (proj2 (part002_calls e req s)).
Qed.

(** ** What the handlers make of the completion service's answer *)

Ltac completion_sent :=
  let resp := fresh "resp" in
  let body := fresh "body" in
  let Hreq := fresh "Hreq" in
  let Hans := fresh "Hans" in
  intros resp [body [Hreq Hans]];
  revert Hreq; read_requests; intros Hreq;
  first [ discriminate Hreq
        | injection Hreq as Hreq; subst body; revert Hans;
          match goal with
          | E : completion _ _ = _ |- _ => rewrite E
          end;
          intros Hans;
          first [ discriminate Hans | injection Hans as <- ] ].

Ltac completion_cases :=
  repeat match goal with
         | H : prop _ _ = inl _ |- _ =>
             apply prop_inl in H; destruct H as [-> H]
         | H : prop _ _ = inr _ |- _ =>
             apply prop_inr in H; destruct H as [-> _]
         end;
  repeat split; intros;
  repeat match goal with
         | H1 : resp_json ?r = Some ?a, H2 : resp_json ?r = Some ?b |- _ =>
             rewrite H1 in H2; injection H2 as <-
         end;
  unfold first_choice_content, first_choice_text in *;
  cbn [Js.opt_prop Js.opt_index0] in *;
  try congruence;
  read_replies; cbn [object fmap option_fmap option_map];
  repeat match goal with
         | H : _ = Some _ |- _ => rewrite H
         end;
  reflexivity.

Lemma or_else_default_truthy (x : jsval) :
  Js.truthy (Js.or_else x (Some (JStr EmptyString))) = Js.truthy x.
Proof. unfold Js.or_else. destruct (Js.truthy x) eqn:E; [exact E | reflexivity]. Qed.

Lemma or_else_default (x : jsval) :
  Js.truthy x = true -> Js.or_else x (Some (JStr EmptyString)) = x.
Proof. intros H. unfold Js.or_else. rewrite H. reflexivity. Qed.

Ltac backend_completion_cases :=
  rewrite ?or_else_default_truthy in *;
  repeat split; intros;
  repeat match goal with
         | H1 : resp_json ?r = Some ?a, H2 : resp_json ?r = Some ?b |- _ =>
             rewrite H1 in H2; injection H2 as <-
         end;
  unfold first_choice_content, first_choice_text in *;
  try congruence;
  read_replies; cbn [object fmap option_fmap option_map];
  repeat match goal with
         | H : _ = Some _ |- _ => rewrite H
         end;
  rewrite ?or_else_default by assumption;
  reflexivity.

Lemma backend_completion_outcome (e : env) (req : request) (s : state) :
  wp (Backend.handler e req)
     (fun _ s' =>
        forall resp, completion_answered e s s' resp ->
          (resp_ok resp = false ->
           replies_since s s'
           = [mk_reply 500
                [("success", FBool false);
                 ("error", FStr ("Groq API error (" +:+ Js.string_of_N (resp_status resp)
                                 +:+ "): " +:+ resp_text resp))]])
          /\ (forall data out,
                resp_ok resp = true -> resp_json resp = Some data ->
                Js.or_else (first_choice_content data) (first_choice_text data) = Some out ->
                Js.truthy (Some out) = true ->
                replies_since s s'
                = [mk_reply 200 [("success", FBool true); ("output", FJson out)]])
          /\ (forall data,
                resp_ok resp = true -> resp_json resp = Some data ->
                Js.truthy (Js.or_else (first_choice_content data) (first_choice_text data))
                = false ->
                replies_since s s'
                = [mk_reply 500
                     [("success", FBool false);
                      ("error", FStr "No output text received from Groq")]])) s.
Proof. wp_exec. all: completion_sent. all: backend_completion_cases. Qed.

Lemma part000_completion_outcome (e : env) (req : request) (s : state) :
  wp (Part000.handler e req)
     (fun _ s' =>
        forall resp, completion_answered e s s' resp ->
          (resp_ok resp = false ->
           replies_since s s'
           = [mk_reply 500
                [("error", FStr ("Groq API Error: " +:+ Js.string_of_N (resp_status resp)
                                 +:+ " - " +:+ resp_text resp))]])
          /\ (forall data out,
                resp_ok resp = true -> resp_json resp = Some data ->
                first_choice_content data = Some out -> Js.truthy (Some out) = true ->
                replies_since s s'
                = [mk_reply 200 [("success", FBool true); ("output", FJson out)]])
          /\ (forall data,
                resp_ok resp = true -> resp_json resp = Some data -> data <> JNull ->
                Js.truthy (first_choice_content data) = false ->
                replies_since s s'
                = [mk_reply 500
                     [("error", FStr "Invalid response or missing content from Groq API.")]])) s.
Proof. wp_exec. all: completion_sent. all: completion_cases. Qed.

Lemma part001_completion_outcome (e : env) (req : request) (s : state) :
  wp (Part001.handler e req)
     (fun _ s' =>
        forall resp, completion_answered e s s' resp ->
          (resp_ok resp = false ->
           replies_since s s'
           = [mk_reply 500
                [("error", FStr ("Groq API Error: " +:+ Js.string_of_N (resp_status resp)
                                 +:+ " - " +:+ resp_text resp))]])
          /\ (forall data out,
                resp_ok resp = true -> resp_json resp = Some data ->
                first_choice_content data = Some out -> Js.truthy (Some out) = true ->
                replies_since s s'
                = [mk_reply 200 [("success", FBool true); ("output", FJson out)]])
          /\ (forall data,
                resp_ok resp = true -> resp_json resp = Some data -> data <> JNull ->
                Js.truthy (first_choice_content data) = false ->
                replies_since s s'
                = [mk_reply 500
                     [("error", FStr "Invalid response or missing content from Groq API.")]])) s.
Proof. wp_exec. all: completion_sent. all: completion_cases. Qed.

Lemma part002_completion_outcome (e : env) (req : request) (s : state) :
  wp (Part002.handler e req)
     (fun _ s' =>
        forall resp, completion_answered e s s' resp ->
          (resp_ok resp = false ->
           replies_since s s'
           = [mk_reply (resp_status resp)
                [("error", FStr "API Error"); ("details", FStr (resp_text resp))]])
          /\ (forall data out,
                resp_ok resp = true -> resp_json resp = Some data ->
                first_choice_content data = Some out -> Js.truthy (Some out) = true ->
                replies_since s s'
                = [mk_reply 200 [("success", FBool true); ("output", FJson out)]])
          /\ (forall data,
                resp_ok resp = true -> resp_json resp = Some data -> data <> JNull ->
                Js.truthy (first_choice_content data) = false ->
                replies_since s s'
                = [mk_reply 500
                     [("error", FStr "Something went wrong!");
                      ("message",
                       FStr (match NODE_ENV e with
                             | Some mode =>
                                 if String.eqb mode "development"
                                 then "Invalid response from Groq API"
                                 else "Internal server error"
                             | None => "Internal server error"
                             end))]])) s.
Proof. wp_exec. all: completion_sent. all: completion_cases. Qed.

Section CompletionAnswer.

Variable e : env.
Variable req : request.
Variable s : state.
Variable resp : fetch_response.

(** X13.  A completion request answered with a status outside 2xx ends the
    request with a failure that shows the upstream status and body: the
    hosted-parser variant, part_000 and part_001 answer HTTP 500 with the
    status and the body in the message; part_002 answers with the upstream
    status itself and the body under [details]. *)
Theorem completion_error_surfaced :
  resp_ok resp = false ->
  (completion_answered e s (snd (Backend.handler e req s)) resp ->
   replies_since s (snd (Backend.handler e req s))
   = [mk_reply 500
        [("success", FBool false);
         ("error", FStr ("Groq API error (" +:+ Js.string_of_N (resp_status resp)
                         +:+ "): " +:+ resp_text resp))]])
  /\ (completion_answered e s (snd (Part000.handler e req s)) resp ->
      replies_since s (snd (Part000.handler e req s))
      = [mk_reply 500
           [("error", FStr ("Groq API Error: " +:+ Js.string_of_N (resp_status resp)
                            +:+ " - " +:+ resp_text resp))]])
  /\ (completion_answered e s (snd (Part001.handler e req s)) resp ->
      replies_since s (snd (Part001.handler e req s))
      = [mk_reply 500
           [("error", FStr ("Groq API Error: " +:+ Js.string_of_N (resp_status resp)
                            +:+ " - " +:+ resp_text resp))]])
  /\ (completion_answered e s (snd (Part002.handler e req s)) resp ->
      replies_since s (snd (Part002.handler e req s))
      = [mk_reply (resp_status resp)
           [("error", FStr "API Error"); ("details", FStr (resp_text resp))]]).
Proof.
  intros Hrefused.
  split; [|split; [|split]]; intros Hsent.
  - exact (proj1 (backend_completion_outcome e req s resp Hsent) Hrefused).
  - exact (proj1 (part000_completion_outcome e req s resp Hsent) Hrefused).
  - exact (proj1 (part001_completion_outcome e req s resp Hsent) Hrefused).
  - exact (proj1 (part002_completion_outcome e req s resp Hsent) Hrefused).
Qed.

(** X14.  A completion request answered with a 2xx status and a JSON
    document whose first choice has a non-empty content ends the request
    with HTTP 200 [{ success: true, output }] where [output] is that
    content, unchanged; the hosted-parser variant falls back on the [text]
    of the first choice when the content is missing or empty. *)
Theorem completion_content_returned (data out : json) :
  resp_ok resp = true ->
  resp_json resp = Some data ->
  Js.truthy (Some out) = true ->
  (completion_answered e s (snd (Backend.handler e req s)) resp ->
   Js.or_else (first_choice_content data) (first_choice_text data) = Some out ->
   replies_since s (snd (Backend.handler e req s))
   = [mk_reply 200 [("success", FBool true); ("output", FJson out)]])
  /\ (first_choice_content data = Some out ->
      (completion_answered e s (snd (Part000.handler e req s)) resp ->
       replies_since s (snd (Part000.handler e req s))
       = [mk_reply 200 [("success", FBool true); ("output", FJson out)]])
      /\ (completion_answered e s (snd (Part001.handler e req s)) resp ->
          replies_since s (snd (Part001.handler e req s))
          = [mk_reply 200 [("success", FBool true); ("output", FJson out)]])
      /\ (completion_answered e s (snd (Part002.handler e req s)) resp ->
          replies_since s (snd (Part002.handler e req s))
          = [mk_reply 200 [("success", FBool true); ("output", FJson out)]])).
Proof.
  intros Hok Hdata Htruthy. split.
  - intros Hsent Hout.
    exact (proj1 (proj2 (backend_completion_outcome e req s resp Hsent))
             data out Hok Hdata Hout Htruthy).
  - intros Hout. split; [|split]; intros Hsent.
    + exact (proj1 (proj2 (part000_completion_outcome e req s resp Hsent))
               data out Hok Hdata Hout Htruthy).
    + exact (proj1 (proj2 (part001_completion_outcome e req s resp Hsent))
               data out Hok Hdata Hout Htruthy).
    + exact (proj1 (proj2 (part002_completion_outcome e req s resp Hsent))
               data out Hok Hdata Hout Htruthy).
Qed.

(** X15.  A completion request answered with a 2xx status and a JSON
    document that holds no usable first choice ends the request with a
    failure, never with an empty output: ["No output text received from
    Groq"] in the hosted-parser variant, ["Invalid response or missing
    content from Groq API."] in part_000 and part_001, and in part_002 the
    generic HTTP 500 whose message is ["Invalid response from Groq API"]
    in development mode and ["Internal server error"] otherwise. *)
Theorem completion_without_content_rejected (data : json) :
  resp_ok resp = true ->
  resp_json resp = Some data ->
  (completion_answered e s (snd (Backend.handler e req s)) resp ->
   Js.truthy (Js.or_else (first_choice_content data) (first_choice_text data)) = false ->
   replies_since s (snd (Backend.handler e req s))
   = [mk_reply 500 [("success", FBool false);
                    ("error", FStr "No output text received from Groq")]])
  /\ (data <> JNull ->
      Js.truthy (first_choice_content data) = false ->
      (completion_answered e s (snd (Part000.handler e req s)) resp ->
       replies_since s (snd (Part000.handler e req s))
       = [mk_reply 500
            [("error", FStr "Invalid response or missing content from Groq API.")]])
      /\ (completion_answered e s (snd (Part001.handler e req s)) resp ->
          replies_since s (snd (Part001.handler e req s))
          = [mk_reply 500
               [("error", FStr "Invalid response or missing content from Groq API.")]])
      /\ (completion_answered e s (snd (Part002.handler e req s)) resp ->
          replies_since s (snd (Part002.handler e req s))
          = [mk_reply 500
               [("error", FStr "Something went wrong!");
                ("message",
                 FStr (match NODE_ENV e with
                       | Some mode =>
                           if String.eqb mode "development"
                           then "Invalid response from Groq API"
                           else "Internal server error"
                       | None => "Internal server error"
                       end))]])).
Proof.
  intros Hok Hdata. split.
  - intros Hsent Hnone.
    exact (proj2 (proj2 (backend_completion_outcome e req s resp Hsent))
             data Hok Hdata Hnone).
  - intros Hnn Hnone. split; [|split]; intros Hsent.
    + exact (proj2 (proj2 (part000_completion_outcome e req s resp Hsent))
               data Hok Hdata Hnn Hnone).
    + exact (proj2 (proj2 (part001_completion_outcome e req s resp Hsent))
               data Hok Hdata Hnn Hnone).
    + exact (proj2 (proj2 (part002_completion_outcome e req s resp Hsent))
               data Hok Hdata Hnn Hnone).
Qed.

End CompletionAnswer.

(** The completion request of a concrete run. *)
Ltac sent_and_answered :=
  eexists; split; [vm_compute; reflexivity | reflexivity].

(** X13 at work: a readable PDF with a prompt, a parser that is done at the
    first poll, and a completion service that is down. *)
Lemma completion_error_surfaced_witness :
  let e := Mock.services (Mock.done_at 0 "# Invoice") Scenario.down in
  let file := Mock.stored "scan.pdf" "application/pdf" in
  let s := Mock.start [(path file, "Invoice 42")] in
  let req := mk_req (Some file) (Some "What is the total?") in
  replies_since s (snd (Backend.handler e req s))
  = [mk_reply 500 [("success", FBool false);
                   ("error", FStr "Groq API error (503): Service Unavailable")]]
  /\ replies_since s (snd (Part000.handler e req s))
     = [mk_reply 500 [("error", FStr "Groq API Error: 503 - Service Unavailable")]]
  /\ replies_since s (snd (Part001.handler e req s))
     = [mk_reply 500 [("error", FStr "Groq API Error: 503 - Service Unavailable")]]
  /\ replies_since s (snd (Part002.handler e req s))
     = [mk_reply 503 [("error", FStr "API Error");
                      ("details", FStr "Service Unavailable")]].
Proof.
  intros e file s req.
  destruct (completion_error_surfaced e req s Scenario.unavailable eq_refl)
    as (Hb & H0 & H1 & H2).
  split; [|split; [|split]].
  - apply Hb. sent_and_answered.
  - apply H0. sent_and_answered.
  - apply H1. sent_and_answered.
  - apply H2. sent_and_answered.
Defined.

(** X14 at work: the completion service says ["Total: 42"]. *)
Lemma completion_content_returned_witness :
  let e := Mock.services (Mock.done_at 0 "# Invoice") (Mock.says "Total: 42") in
  let file := Mock.stored "scan.pdf" "application/pdf" in
  let s := Mock.start [(path file, "Invoice 42")] in
  let req := mk_req (Some file) (Some "What is the total?") in
  let answer := [mk_reply 200 [("success", FBool true);
                               ("output", FJson (JStr "Total: 42"))]] in
  replies_since s (snd (Backend.handler e req s)) = answer
  /\ replies_since s (snd (Part000.handler e req s)) = answer
  /\ replies_since s (snd (Part001.handler e req s)) = answer
  /\ replies_since s (snd (Part002.handler e req s)) = answer.
Proof.
  intros e file s req answer.
  destruct (completion_content_returned e req s (Mock.completed "Total: 42")
              _ (JStr "Total: 42") eq_refl eq_refl eq_refl) as (Hb & Hsiblings).
  destruct (Hsiblings eq_refl) as (H0 & H1 & H2).
  split; [|split; [|split]].
  - apply Hb; [sent_and_answered | reflexivity].
  - apply H0. sent_and_answered.
  - apply H1. sent_and_answered.
  - apply H2. sent_and_answered.
Defined.

(** X15 at work: the completion service answers with an empty list of
    choices. *)
Lemma completion_without_content_rejected_witness :
  let e := Mock.services (Mock.done_at 0 "# Invoice") Scenario.silent in
  let file := Mock.stored "scan.pdf" "application/pdf" in
  let s := Mock.start [(path file, "Invoice 42")] in
  let req := mk_req (Some file) (Some "What is the total?") in
  replies_since s (snd (Backend.handler e req s))
  = [mk_reply 500 [("success", FBool false);
                   ("error", FStr "No output text received from Groq")]]
  /\ replies_since s (snd (Part000.handler e req s))
     = [mk_reply 500
          [("error", FStr "Invalid response or missing content from Groq API.")]]
  /\ replies_since s (snd (Part001.handler e req s))
     = [mk_reply 500
          [("error", FStr "Invalid response or missing content from Groq API.")]]
  /\ replies_since s (snd (Part002.handler e req s))
     = [mk_reply 500 [("error", FStr "Something went wrong!");
                      ("message", FStr "Internal server error")]].
Proof.
  intros e file s req.
  destruct (completion_without_content_rejected e req s Scenario.no_choice
              _ eq_refl eq_refl) as (Hb & Hsiblings).
  assert (Hnn : JObj [("choices", JArr [])] <> JNull) by discriminate.
  destruct (Hsiblings Hnn eq_refl) as (H0 & H1 & H2).
  split; [|split; [|split]].
  - apply Hb; [sent_and_answered | reflexivity].
  - apply H0. sent_and_answered.
  - apply H1. sent_and_answered.
  - apply H2. sent_and_answered.
Defined.

(** ** part_000: what is sent to the model, by type of document *)




Section Part000Document.

Variable e : env.
Variable s : state.
Variable file : upload_file.
Variables prompt bytes : string.

Hypothesis Hprompt : prompt <> EmptyString.
Hypothesis Hbytes : fs s !! path file = Some bytes.



End Part000Document.


(** ** The files a request touches *)

Ltac other_file :=
  state_simpl;
  rewrite ?lookup_delete_ne, ?lookup_insert_ne by assumption;
  reflexivity.

Lemma backend_other_files (e : env) (file : option upload_file) (prompt : option string)
    (s : state) (p : string) :
  match file with Some f => path f <> p | None => True end ->
  wp (Backend.handler e (mk_req file prompt)) (fun _ s' => fs s' !! p = fs s !! p) s.
Proof. intros Hp. destruct file; wp_exec. all: other_file. Qed.

Lemma part001_other_files (e : env) (file : option upload_file) (prompt : option string)
    (s : state) (p : string) :
  match file with Some f => path f <> p | None => True end ->
  wp (Part001.handler e (mk_req file prompt)) (fun _ s' => fs s' !! p = fs s !! p) s.
Proof. intros Hp. destruct file; wp_exec. all: other_file. Qed.

Lemma part002_other_files (e : env) (file : option upload_file) (prompt : option string)
    (s : state) (p : string) :
  match file with Some f => path f <> p | None => True end ->
  wp (Part002.handler e (mk_req file prompt)) (fun _ s' => fs s' !! p = fs s !! p) s.
Proof. intros Hp. destruct file; wp_exec. all: other_file. Qed.

Lemma part000_other_files (e : env) (file : option upload_file) (prompt : option string)
    (s : state) (p : string) :
  match file with Some f => path f <> p | None => True end ->
  path_join (tmpdir e) ("temp-" +:+ Js.string_of_N (clock s)) +:+ "-1.png" <> p ->
  wp (Part000.handler e (mk_req file prompt)) (fun _ s' => fs s' !! p = fs s !! p) s.
Proof. intros Hp Htemp. destruct file; wp_exec. all: other_file. Qed.

(** X17.  A request touches no file but its own upload (and, in part_000,
    the page image it writes under the temporary directory): every other
    path holds after the request what it held before, whatever the hosted
    services and the PDF libraries do.  With no upload nothing on disk
    changes; in particular part_002 never removes the bundled document it
    falls back on. *)
Theorem other_files_untouched (e : env) (req : request) (s : state) (p : string) :
  (forall f, req_file req = Some f -> path f <> p) ->
  fs (snd (Backend.handler e req s)) !! p = fs s !! p
  /\ fs (snd (Part001.handler e req s)) !! p = fs s !! p
  /\ fs (snd (Part002.handler e req s)) !! p = fs s !! p
  /\ (path_join (tmpdir e) ("temp-" +:+ Js.string_of_N (clock s)) +:+ "-1.png" <> p ->
      fs (snd (Part000.handler e req s)) !! p = fs s !! p).
Proof.
  intros Hp. destruct req as [file prompt].
  assert (Hfile : match file with Some f => path f <> p | None => True end).
  { destruct file as [f|]; [apply Hp; reflexivity | exact I]. }
  split; [exact (backend_other_files e file prompt s p Hfile)|].
  split; [exact (part001_other_files e file prompt s p Hfile)|].
  split; [exact (part002_other_files e file prompt s p Hfile)|].
  intros Htemp. exact (part000_other_files e file prompt s p Hfile Htemp).
Qed.

(** X17 at work: another upload on disk while a request is served. *)
Lemma other_files_untouched_witness :
  let e := Mock.services (Mock.done_at 0 "# Invoice") (Mock.says "Total: 42") in
  let file := Mock.stored "scan.pdf" "application/pdf" in
  let kept := "/srv/backend/data/uploads/1699999999999-other.pdf" in
  let s := Mock.start [(path file, "Invoice 42"); (kept, "Other")] in
  let req := mk_req (Some file) (Some "What is the total?") in
  fs (snd (Backend.handler e req s)) !! kept = Some "Other"
  /\ fs (snd (Part001.handler e req s)) !! kept = Some "Other"
  /\ fs (snd (Part002.handler e req s)) !! kept = Some "Other".
Proof.
  intros e file kept s req.
  assert (Hp : forall f, req_file req = Some f -> path f <> kept).
  { intros f Hf. injection Hf as <-. vm_compute. discriminate. }
  destruct (other_files_untouched e req s kept Hp) as (Hb & H1 & H2 & _).
  split; [|split].
  - rewrite Hb. vm_compute. reflexivity.
  - rewrite H1. vm_compute. reflexivity.
  - rewrite H2. vm_compute. reflexivity.
Defined.








(** ** Uploads of a type the variant does not take *)

Section DisallowedType.

Variable e : env.
Variable f : Upload.incoming_file.
Variable prompt : option string.
Variable s : state.

(** X19.  An upload whose MIME type the variant does not take is refused
    by the file filter before anything is stored: the whole request adds one
    HTTP 500 reply and changes nothing else, neither the disk nor the
    trace.  The message names the types taken, except in part_002, which
    shows it only in development mode. *)
Theorem disallowed_type_refused :
  (Js.startsWith (Upload.in_mimetype f) "image/" = false ->
   Upload.in_mimetype f <> "application/pdf" ->
   Backend.route e (Some f) prompt s
   = (Ret tt, add_reply (mk_reply 500
                           [("error", FStr "Only image and PDF files are allowed.")]) s)
   /\ Part000.route e (Some f) prompt s
      = (Ret tt, add_reply (mk_reply 500
                              [("error", FStr "Only image and PDF files are allowed.")]) s))
  /\ (Js.startsWith (Upload.in_mimetype f) "image/" = false ->
      Part001.route e (Some f) prompt s
      = (Ret tt, add_reply (mk_reply 500
                              [("error", FStr "Only image files are allowed.")]) s))
  /\ (Upload.in_mimetype f <> "application/pdf" ->
      Part002.route e (Some f) prompt s
      = (Ret tt,
         add_reply (mk_reply 500
                      [("error", FStr "Something went wrong!");
                       ("message",
                        FStr (match NODE_ENV e with
                              | Some mode =>
                                  if String.eqb mode "development"
                                  then "Only PDF files are allowed!"
                                  else "Internal server error"
                              | None => "Internal server error"
                              end))]) s)).
Proof.
  split; [|split].
  - intros Himage Hpdf. apply String.eqb_neq in Hpdf.
    assert (Hfilter : Backend.fileFilter (Upload.in_mimetype f)
                      = inl (Error "Only image and PDF files are allowed.")).
    { unfold Backend.fileFilter. rewrite Himage, Hpdf. reflexivity. }
    split.
    + unfold Backend.route, Upload.single, bind, try_catch, lift.
      rewrite Hfilter. reflexivity.
    + unfold Part000.route, Upload.single, bind, try_catch, lift.
      change (Part000.fileFilter (Upload.in_mimetype f))
        with (Backend.fileFilter (Upload.in_mimetype f)).
      rewrite Hfilter. reflexivity.
  - intros Himage.
    unfold Part001.route, Upload.single, bind, try_catch, lift, Part001.fileFilter.
    rewrite Himage. reflexivity.
  - intros Hpdf. apply String.eqb_neq in Hpdf.
    unfold Part002.route, Upload.single, bind, try_catch, lift, Part002.fileFilter.
    rewrite Hpdf. reflexivity.
Qed.

End DisallowedType.

(** X19 at work: a text file sent to each of the four servers. *)
Lemma disallowed_type_refused_witness :
  let e := Mock.services Mock.never (Mock.says "unused") in
  let part := Upload.mk_incoming "notes.txt" "text/plain" 12 "hello, world" in
  let s := Mock.start [] in
  replies (snd (Backend.route e (Some part) (Some "summarize") s))
  = [mk_reply 500 [("error", FStr "Only image and PDF files are allowed.")]]
  /\ replies (snd (Part001.route e (Some part) (Some "summarize") s))
     = [mk_reply 500 [("error", FStr "Only image files are allowed.")]]
  /\ snd (Part002.route e (Some part) (Some "summarize") s)
     = add_reply (mk_reply 500 [("error", FStr "Something went wrong!");
                                ("message", FStr "Internal server error")]) s.
Proof.
  intros e part s.
  assert (Hpdf : Upload.in_mimetype part <> "application/pdf") by discriminate.
  destruct (disallowed_type_refused e part (Some "summarize") s) as (Hboth & H1 & H2).
  destruct (Hboth eq_refl Hpdf) as (Hb & _).
  split; [rewrite Hb; reflexivity|].
  split; [rewrite (H1 eq_refl); reflexivity|].
  rewrite (H2 Hpdf). reflexivity.
Defined.

(** ** What part_002 shows of an error *)

Lemma message_hidden (e : env) (msg : string) :
  NODE_ENV e <> Some "development" ->
  match NODE_ENV e with
  | Some mode => if String.eqb mode "development" then msg else "Internal server error"
  | None => "Internal server error"
  end = "Internal server error".
Proof.
  intros Hprod. destruct (NODE_ENV e) as [mode|]; [|reflexivity].
  destruct (String.eqb_spec mode "development") as [->|]; [congruence | reflexivity].
Qed.

Ltac no_message Hprod :=
  read_replies; rewrite ?(message_hidden _ _ Hprod);
  repeat constructor;
  let m := fresh "m" in
  let Hin := fresh "Hin" in
  intros m Hin; cbn [reply_body] in Hin;
  repeat match goal with
         | H : context [FStr <$> err_path ?j] |- _ =>
             destruct (err_path j); cbn [fmap option_fmap option_map] in H
         | H : context [FJson <$> ?v] |- _ =>
             destruct v; cbn [fmap option_fmap option_map] in H
         end;
  cbn [object] in Hin;
  cbn [In] in Hin;
  repeat (destruct Hin as [Hin|Hin]; [congruence|]);
  destruct Hin.

(** X20.  Outside development mode part_002 never shows the message of an
    error: whatever went wrong in a request (a refused upload, a missing or
    unreadable document, a failing library, an unusable completion), a
    reply that has a [message] field has ["Internal server error"] in it. *)
Theorem part002_hides_error_messages (e : env) (part : option Upload.incoming_file)
    (prompt : option string) (s : state) :
  NODE_ENV e <> Some "development" ->
  Forall (fun r => forall m, In ("message", FStr m) (reply_body r) ->
                             m = "Internal server error")
         (replies_since s (snd (Part002.route e part prompt s))).
Proof.
  intros Hprod.
  change (wp (Part002.route e part prompt)
            (fun _ s' =>
               Forall (fun r => forall m, In ("message", FStr m) (reply_body r) ->
                                          m = "Internal server error")
                      (replies_since s s')) s).
  wp_exec_fs. all: no_message Hprod.
Qed.

(** X20 at work: no upload, and the bundled document is missing. *)
Lemma part002_hides_error_messages_witness :
  let e := Mock.services Mock.never (Mock.says "unused") in
  let s := Mock.start [] in
  replies_since s (snd (Part002.route e None (Some "Who is this?") s))
  = [mk_reply 500 [("error", FStr "Something went wrong!");
                   ("message", FStr "Internal server error")]]
  /\ Forall (fun r => forall m, In ("message", FStr m) (reply_body r) ->
                                m = "Internal server error")
            (replies_since s (snd (Part002.route e None (Some "Who is this?") s))).
Proof.
  intros e s.
  assert (Hprod : NODE_ENV e <> Some "development") by discriminate.
  split; [vm_compute; reflexivity|].
  exact (part002_hides_error_messages e None (Some "Who is this?") s Hprod).
Defined.
